(** * Website content chatbot: extraction pipeline and conversation manager

    A shallow embedding of [website_chatbot.py]: the [WebsiteScraper]
    field extractors working on a parsed document tree, the [Chatbot]
    context formatter and its [get_response] / [clear_history] methods.

    Conventions of the model.
    - A Python [str] is a [string]; one [ascii] stands for one code point
      below 256.  The cross mark that opens the error message of
      [get_response] lies outside that range and is kept as the bytes of
      its encoding.
    - A [Dict[str, str]] is a [gmap string string].
    - The parsed document (the BeautifulSoup object) is the list of its
      top-level nodes; a node is a text node or a tag with a name, an
      attribute dictionary and its contents.  Comments, doctypes and the
      like are not text for [get_text] and are not part of the model.
    - [decompose] mutates the tree shared by the extractors, so the
      extractors that call it return the tree they leave behind. *)

From Stdlib Require Import Ascii DecimalString.
From stdpp Require Import gmap strings list fin_maps.

(** ** Python string operations *)

Module Py.

(** The line feed, written ['\n'] in the source. *)
Definition nl : string := String "010"%char "".

(** Truth value of a string: [bool(s)]. *)
Definition truthy (s : string) : bool :=
  match s with "" => false | String _ _ => true end.

(** [str.isspace] on one code point. *)
Definition is_space (c : ascii) : bool :=
  match c with
  | "009" | "010" | "011" | "012" | "013"
  | "028" | "029" | "030" | "031" | " " | "133" | "160" => true
  | _ => false
  end%char.

Fixpoint lstrip (s : string) : string :=
  match s with
  | "" => ""
  | String c s' => if is_space c then lstrip s' else s
  end.

Fixpoint rstrip (s : string) : string :=
  match s with
  | "" => ""
  | String c s' =>
      match rstrip s' with
      | "" => if is_space c then "" else String c ""
      | r => String c r
      end
  end.

(** [s.strip()] *)
Definition strip (s : string) : string := rstrip (lstrip s).

(** [s[:n]] *)
Fixpoint take (n : nat) (s : string) : string :=
  match n, s with
  | S n', String c s' => String c (take n' s')
  | _, _ => ""
  end.

#[global] Arguments take : simpl never.

(** [sep.join(l)] *)
Fixpoint join (sep : string) (l : list string) : string :=
  match l with
  | [] => ""
  | [s] => s
  | s :: l' => s +:+ sep +:+ join sep l'
  end.

(** [s.split(c)] for a one-character separator. *)
Fixpoint split (c : ascii) (s : string) : list string :=
  match s with
  | "" => [""]
  | String a s' =>
      if Ascii.eqb a c then "" :: split c s'
      else match split c s' with
           | [] => [String a ""]
           | w :: ws => String a w :: ws
           end
  end.

(** [s.startswith(p)] *)
Fixpoint startswith (s p : string) : bool :=
  match p, s with
  | "", _ => true
  | String b p', String a s' => Ascii.eqb a b && startswith s' p'
  | String _ _, "" => false
  end.

(** [sub in s] *)
Fixpoint contains (s sub : string) : bool :=
  startswith s sub ||
  match s with
  | "" => false
  | String _ s' => contains s' sub
  end.

Definition lower_char (c : ascii) : ascii :=
  let n := nat_of_ascii c in
  if (65 <=? n) && (n <=? 90) then ascii_of_nat (n + 32)
  else if (192 <=? n) && (n <=? 222) && negb (n =? 215) then ascii_of_nat (n + 32)
  else c.

(** [s.lower()] *)
Fixpoint lower (s : string) : string :=
  match s with
  | "" => ""
  | String c s' => String (lower_char c) (lower s')
  end.

(** The tokens matched by the regular expression [\S+]. *)
Fixpoint tokens_go (cur : string) (s : string) : list string :=
  match s with
  | "" => if truthy cur then [cur] else []
  | String a s' =>
      if is_space a
      then (if truthy cur then [cur] else []) ++ tokens_go "" s'
      else tokens_go (cur +:+ String a "") s'
  end.
Definition tokens (s : string) : list string := tokens_go "" s.

(** [str(n)] for a natural number. *)
Definition str_of_nat (n : nat) : string :=
  NilZero.string_of_uint (Nat.to_uint n).

End Py.

(** ** The parsed document *)

#[local] Set Warnings "-register-all".

Inductive node :=
| NavigableString (s : string)
| Tag (name : string) (attrs : gmap string string) (contents : list node).

(** The BeautifulSoup object: the top-level nodes of the document. *)
Abbreviation BeautifulSoup := (list node).

Fixpoint self_and_descendants (n : node) : list node :=
  n :: match n with
       | NavigableString _ => []
       | Tag _ _ cs => flat_map self_and_descendants cs
       end.

(** [element.descendants]: every node below, in document order. *)
Definition descendants (cs : BeautifulSoup) : list node :=
  flat_map self_and_descendants cs.

Definition contents_of (n : node) : BeautifulSoup :=
  match n with NavigableString _ => [] | Tag _ _ cs => cs end.

(** A search criterion on a tag: its name and its attributes. *)
Definition criterion := string → gmap string string → bool.

Definition matches (m : criterion) (n : node) : bool :=
  match n with
  | NavigableString _ => false
  | Tag nm a _ => m nm a
  end.

(** [element.find_all(...)], also written [element(...)] *)
Definition find_all (m : criterion) (t : BeautifulSoup) : list node :=
  List.filter (matches m) (descendants t).

(** [element.find(...)]: the first match, [None] when there is none. *)
Definition find (m : criterion) (t : BeautifulSoup) : option node :=
  head (find_all m t).

(** Criterion [name]: the tag name. *)
Definition named (nm : string) : criterion :=
  λ n _, bool_decide (n = nm).

(** Criterion [[name1, name2, ...]]: one of the tag names. *)
Definition named_in (nms : list string) : criterion :=
  λ n _, bool_decide (n ∈ nms).

(** Criterion [name, attrs={k: v}]. *)
Definition named_with_attr (nm k v : string) : criterion :=
  λ n a, bool_decide (n = nm) && bool_decide (a !! k = Some v).

(** Criterion [name, k=True]: the attribute is present. *)
Definition named_having (nm k : string) : criterion :=
  λ n a, bool_decide (n = nm) && bool_decide (is_Some (a !! k)).

(** How a function given as [class_] is matched: the class attribute is a
    list of tokens; the function is tried on each token, then on the
    tokens joined by a space; without a class attribute it is tried on
    [None]. *)
Definition class_matches (f : option string → bool) (a : gmap string string) : bool :=
  match a !! "class" with
  | None => f None
  | Some v =>
      let cls := Py.tokens v in
      existsb (λ c, f (Some c)) cls || f (Some (Py.join " " cls))
  end.

(** Criterion [name, class_=f]. *)
Definition named_with_class (nm : string) (f : option string → bool) : criterion :=
  λ n a, bool_decide (n = nm) && class_matches f a.

(** [for e in soup(names): e.decompose()]: every tag with one of the
    names is destroyed with all it contains.  A match inside an earlier
    match is already gone when its turn comes; the document object itself
    is never a match. *)
Fixpoint decompose_node (nms : list string) (n : node) : node :=
  match n with
  | NavigableString s => NavigableString s
  | Tag nm a cs =>
      Tag nm a
        (flat_map (λ c, if matches (named_in nms) c then []
                        else [decompose_node nms c]) cs)
  end.

Definition decompose_all (nms : list string) (t : BeautifulSoup) : BeautifulSoup :=
  flat_map (λ c, if matches (named_in nms) c then []
                 else [decompose_node nms c]) t.

(** [_all_strings(strip=True)]: the text nodes below, each stripped, the
    empty ones skipped. *)
Definition stripped_strings (t : BeautifulSoup) : list string :=
  flat_map (λ n, match n with
                 | NavigableString s =>
                     let s' := Py.strip s in
                     if Py.truthy s' then [s'] else []
                 | Tag _ _ _ => []
                 end) (descendants t).

(** [element.get_text(separator=sep, strip=True)] *)
Definition get_text (sep : string) (n : node) : string :=
  Py.join sep (stripped_strings (contents_of n)).

(** [soup.get_text(separator=sep, strip=True)] on the document object. *)
Definition soup_get_text (sep : string) (t : BeautifulSoup) : string :=
  Py.join sep (stripped_strings t).

(** ** WebsiteScraper *)

Module WebsiteScraper.

Definition attrs_of (n : node) : gmap string string :=
  match n with NavigableString _ => ∅ | Tag _ a _ => a end.

(** [a or b] on the results of [find]: a tag is always true. *)
Definition or_else (a b : option node) : option node :=
  match a with Some e => Some e | None => b end.

Definition _extract_title (soup : BeautifulSoup) : string :=
  match find (named "title") soup with
  | Some title_tag => get_text "" title_tag
  | None => "No title found"
  end.

Definition _extract_description (soup : BeautifulSoup) : string :=
  match find (named_with_attr "meta" "name" "description") soup with
  | Some meta_desc =>
      match attrs_of meta_desc !! "content" with
      | Some c => if Py.truthy c then c else "No description found"
      | None => "No description found"
      end
  | None => "No description found"
  end.

(** [lambda x: x and 'content' in x.lower()] *)
Definition content_class (x : option string) : bool :=
  match x with
  | None => false
  | Some x => Py.truthy x && Py.contains (Py.lower x) "content"
  end.

(** The element whose text becomes the main content, looked up in the
    tree left by the removal. *)
Definition main_content_element (soup : BeautifulSoup) : option node :=
  or_else (find (named "main") soup)
    (or_else (find (named "article") soup)
       (or_else (find (named_with_class "div" content_class) soup)
          (find (named "body") soup))).

Definition _extract_main_content (soup : BeautifulSoup) : string * BeautifulSoup :=
  let soup := decompose_all ["script"; "style"; "nav"; "footer"; "header"] soup in
  let main_content := main_content_element soup in
  match main_content with
  | Some main_content =>
      let text := get_text Py.nl main_content in
      (if Py.truthy text then Py.take 3000 text else "No main content found", soup)
  | None => ("No main content found", soup)
  end.

Definition heading_line (level : nat) (heading : node) : string :=
  "H" +:+ Py.str_of_nat level +:+ ": " +:+ get_text "" heading.

(** The list [headings] when the two loops are over. *)
Definition collected_headings (soup : BeautifulSoup) : list string :=
  fold_left
    (λ headings level,
       fold_left (λ headings heading, headings ++ [heading_line level heading])
         (find_all (named ("h" +:+ Py.str_of_nat level)) soup) headings)
    (seq 1 6) [].

Definition _extract_headings (soup : BeautifulSoup) : string :=
  let headings := collected_headings soup in
  match headings with
  | [] => "No headings found"
  | _ => Py.join Py.nl (take 20 headings)
  end.

(** [link['href']]; the criterion [href=True] makes it present. *)
Definition href_of (link : node) : string :=
  default "" (attrs_of link !! "href").

(** The list [links] when the loop is over. *)
Definition collected_links (soup : BeautifulSoup) : list string :=
  fold_left
    (λ links link,
       let text := get_text "" link in
       let href := href_of link in
       if Py.truthy text && negb (Py.startswith href "#")
       then links ++ [text +:+ ": " +:+ href]
       else links)
    (take 15 (find_all (named_having "a" "href") soup)) [].

Definition _extract_links (soup : BeautifulSoup) : string :=
  let links := collected_links soup in
  match links with
  | [] => "No links found"
  | _ => Py.join Py.nl links
  end.

Definition _extract_full_text (soup : BeautifulSoup) : string * BeautifulSoup :=
  let soup := decompose_all ["script"; "style"; "nav"; "footer"] soup in
  let text := soup_get_text Py.nl soup in
  let text :=
    Py.join Py.nl
      (map Py.strip
         (List.filter (λ line, Py.truthy (Py.strip line)) (Py.split "010" text))) in
  (if Py.truthy text then Py.take 5000 text else "No text found", soup).

(** The body of [scrape_website] once the page is parsed: the record
    of the six fields, and the tree as the extractors leave it. *)
Definition extract (soup : BeautifulSoup) : gmap string string * BeautifulSoup :=
  let title := _extract_title soup in
  let description := _extract_description soup in
  let '(main_content, soup) := _extract_main_content soup in
  let headings := _extract_headings soup in
  let links := _extract_links soup in
  let '(full_text, soup) := _extract_full_text soup in
  (<["title" := title]>
     (<["description" := description]>
        (<["main_content" := main_content]>
           (<["headings" := headings]>
              (<["links" := links]>
                 (<["full_text" := full_text]> ∅))))), soup).

(** What the request gave: an error, or a page, here already parsed. *)
Inductive fetched :=
| RequestException (e : string)
| Page (soup : BeautifulSoup).

Definition scrape_website (r : fetched) : gmap string string :=
  match r with
  | RequestException _ => ∅
  | Page soup => (extract soup).1
  end.

End WebsiteScraper.

(** ** Chatbot *)

Module Chatbot.

(** One entry of the message list: [{"role": ..., "content": ...}]. *)
Record message := Message { role : string; content : string }.

Record chatbot := {
  conversation_history : list message;
  website_content : string
}.

Definition init : chatbot :=
  {| conversation_history := []; website_content := "" |}.

(** [content.get(k)] when it is true: the key is there and its value
    is not empty. *)
Definition get_truthy (content : gmap string string) (k : string) : option string :=
  match content !! k with
  | Some v => if Py.truthy v then Some v else None
  | None => None
  end.

Definition append_if (parts : list string) (label : string) (v : option string) : list string :=
  match v with
  | Some v => parts ++ [label +:+ v]
  | None => parts
  end.

Definition _format_content_for_context (content : gmap string string) : string :=
  let context_parts := [] in
  let context_parts :=
    append_if context_parts "Title: " (get_truthy content "title") in
  let context_parts :=
    append_if context_parts "Description: " (get_truthy content "description") in
  let context_parts :=
    append_if context_parts (Py.nl +:+ "Headings:" +:+ Py.nl)
      (get_truthy content "headings") in
  let context_parts :=
    append_if context_parts (Py.nl +:+ "Main Content:" +:+ Py.nl)
      (get_truthy content "main_content") in
  let context_parts :=
    append_if context_parts (Py.nl +:+ "Important Links:" +:+ Py.nl)
      (get_truthy content "links") in
  Py.join Py.nl context_parts.

Definition set_website_context (content : gmap string string) (self : chatbot) : chatbot :=
  {| conversation_history := conversation_history self;
     website_content := _format_content_for_context content |}.

(** *** Exceptions and the state of the object *)

(** An exception with its message [str(e)]: one that derives from
    [Exception], or one that does not (an interrupt, an exit). *)
Inductive exn :=
| Exception (msg : string)
| BaseException (msg : string).

(** A method body: it reads and writes [self], and returns or raises. *)
Definition M (A : Type) : Type := chatbot → (exn + A) * chatbot.

Definition ret {A} (a : A) : M A := λ self, (inr a, self).
Definition raise {A} (e : exn) : M A := λ self, (inl e, self).
Definition bind {A B} (m : M A) (f : A → M B) : M B :=
  λ self, match m self with
          | (inl e, self') => (inl e, self')
          | (inr a, self') => f a self'
          end.

#[export] Instance M_ret : MRet M := @ret.
#[export] Instance M_bind : MBind M := λ A B f m, bind m f.

(** [try: m  except Exception as e: handler(str(e))] *)
Definition try_except {A} (m : M A) (handler : string → M A) : M A :=
  λ self, match m self with
          | (inl (Exception msg), self') => handler msg self'
          | r => r
          end.

Definition read_history : M (list message) :=
  λ self, (inr (conversation_history self), self).
Definition read_website_content : M string :=
  λ self, (inr (website_content self), self).

(** [self.conversation_history.append(m)] *)
Definition history_append (m : message) : M unit :=
  λ self, (inr (), {| conversation_history := conversation_history self ++ [m];
                      website_content := website_content self |}).

(** *** The completion provider *)

(** What [client.chat.completions.create] does on one call: it raises,
    or it returns a response, of which the model keeps the content of
    each choice's message ([None] when the message has none). *)
Inductive completion :=
| Raises (e : exn)
| Response (choices : list (option string)).

Definition client : Type := list message → completion.

Definition create (c : client) (messages : list message) : M (list (option string)) :=
  match c messages with
  | Raises e => raise e
  | Response choices => ret choices
  end.

(** [response.choices[0].message.content.strip()] *)
Definition first_content_stripped (choices : list (option string)) : M string :=
  match choices with
  | [] => raise (Exception "list index out of range")
  | None :: _ => raise (Exception "'NoneType' object has no attribute 'strip'")
  | Some content :: _ => ret (Py.strip content)
  end.

Definition dq : string := String "034"%char "".

Definition system_message (website_content : string) : string :=
  "You are a helpful chatbot assistant that answers questions based on the content of a specific website."
  +:+ Py.nl +:+ Py.nl +:+
  "WEBSITE CONTENT:" +:+ Py.nl +:+
  website_content +:+ Py.nl +:+ Py.nl +:+
  "INSTRUCTIONS:" +:+ Py.nl +:+
  "- Answer questions using ONLY the information provided in the website content above" +:+ Py.nl +:+
  "- If the answer is not found in the website content, respond with: " +:+ dq +:+
  "The requested information is not available on the provided website." +:+ dq +:+ Py.nl +:+
  "- Be helpful, clear, and concise in your responses" +:+ Py.nl +:+
  "- Do not use external knowledge or information not present in the website content" +:+ Py.nl +:+
  "- If relevant, reference specific sections or headings from the website" +:+ Py.nl +:+
  "- Maintain a friendly and professional tone".

(** [l[-n:]] for [n > 0] *)
Definition last_entries {A} (n : nat) (l : list A) : list A :=
  drop (length l - n) l.

(** The message list handed to the provider. *)
Definition build_messages (user_input : string) : M (list message) :=
  website_content ← read_website_content;
  let messages := [Message "system" (system_message website_content)] in
  history ← read_history;
  let messages := messages ++ last_entries 10 history in
  let messages := messages ++ [Message "user" user_input] in
  ret messages.

Definition error_marker : string := "❌ Error generating response: ".

Definition get_response (c : client) (user_input : string) : M string :=
  try_except
    (messages ← build_messages user_input;
     choices ← create c messages;
     assistant_response ← first_content_stripped choices;
     history_append (Message "user" user_input);;
     history_append (Message "assistant" assistant_response);;
     ret assistant_response)
    (λ e, ret (error_marker +:+ e)).

Definition clear_history : M unit :=
  λ self, (inr (), {| conversation_history := [];
                      website_content := website_content self |}).

(** *** Sequences of calls *)

(** One call on the conversation manager; a question comes with what
    the provider does when asked. *)
Inductive call :=
| Ask (user_input : string) (c : client)
| Clear.

Definition perform (self : chatbot) (k : call) : chatbot :=
  match k with
  | Ask user_input c => (get_response c user_input self).2
  | Clear => (clear_history self).2
  end.

Definition run (calls : list call) (self : chatbot) : chatbot :=
  fold_left perform calls self.

End Chatbot.

(** ** Induction on documents *)

Section node_induction.
Variable P : node → Prop.
Hypothesis Hstring : ∀ s, P (NavigableString s).
Hypothesis Htag : ∀ nm a cs, Forall P cs → P (Tag nm a cs).

Fixpoint node_ind' (n : node) : P n :=
  match n with
  | NavigableString s => Hstring s
  | Tag nm a cs =>
      Htag nm a cs
        ((fix go (l : list node) : Forall P l :=
            match l with
            | [] => @List.Forall_nil node P
            | c :: l' => @List.Forall_cons node P c l' (node_ind' c) (go l')
            end) cs)
  end.
End node_induction.

(** ** Where a node lies in the document *)

(** Every node below [n], [n] included, with the names of the tags that
    enclose it, outermost first. *)
Fixpoint located_in (enclosing : list string) (n : node) : list (list string * node) :=
  (enclosing, n) ::
  match n with
  | NavigableString _ => []
  | Tag nm _ cs => flat_map (located_in (enclosing ++ [nm])) cs
  end.

Definition located (t : BeautifulSoup) : list (list string * node) :=
  flat_map (located_in []) t.

(** None of the enclosing tags is one of the named tags. *)
Definition free_of (nms enclosing : list string) : bool :=
  forallb (λ nm, negb (bool_decide (nm ∈ nms))) enclosing.

(** The node is not one of the named tags and lies inside none. *)
Definition outside (nms : list string) (p : list string * node) : bool :=
  free_of nms p.1 && negb (matches (named_in nms) p.2).

(** ** The statements of the specification *)

Module Spec.
Import WebsiteScraper Chatbot.

(** The five fields of the grounding context with their labels, in the
    order of the formatter. *)
Definition labelled_fields : list (string * string) :=
  [("title", "Title: ");
   ("description", "Description: ");
   ("headings", Py.nl +:+ "Headings:" +:+ Py.nl);
   ("main_content", Py.nl +:+ "Main Content:" +:+ Py.nl);
   ("links", Py.nl +:+ "Important Links:" +:+ Py.nl)].

(** The labelled entries of the fields that are there and not empty. *)
Definition present_parts (content : gmap string string) : list string :=
  omap (λ kl, (λ v, kl.2 +:+ v) <$> get_truthy content kl.1) labelled_fields.

(** The record whose six fields are all "not found". *)
Definition all_not_found : gmap string string :=
  <["title" := "No title found"]>
    (<["description" := "No description found"]>
       (<["main_content" := "No main content found"]>
          (<["headings" := "No headings found"]>
             (<["links" := "No links found"]>
                (<["full_text" := "No text found"]> ∅))))).

(** No leading and no trailing white space. *)
Definition trimmed (s : string) : Prop := Py.strip s = s.

(** The string is empty or begins with a character that is not white. *)
Definition clean_start (s : string) : bool :=
  match s with
  | "" => true
  | String c _ => negb (Py.is_space c)
  end.

(** The character [c] does not occur in [p]. *)
Fixpoint lacks (c : ascii) (p : string) : bool :=
  match p with
  | "" => true
  | String q p' => negb (Ascii.eqb c q) && lacks c p'
  end.

(** The text kept as main content when [e] is the element chosen. *)
Definition main_content_of (e : option node) : string :=
  match e with
  | Some e =>
      let text := get_text Py.nl e in
      if Py.truthy text then Py.take 3000 text else "No main content found"
  | None => "No main content found"
  end.

(** A field as the data model wants it: the sentinel, or text that is
    not empty and trimmed. *)
Definition sentinel_or_trimmed_text (sentinel v : string) : Prop :=
  v = sentinel ∨ (Py.truthy v = true ∧ trimmed v).

(** [r] is the first node of [l] that satisfies [p], if any does. *)
Definition first_in_order (p : node → bool) (l : list node) (r : option node) : Prop :=
  match r with
  | Some e => ∃ l1 l2, l = l1 ++ e :: l2 ∧ p e = true ∧ Forall (λ x, p x = false) l1
  | None => Forall (λ x, p x = false) l
  end.

Definition is_tag (nm : string) (n : node) : bool :=
  match n with
  | NavigableString _ => false
  | Tag nm' _ _ => bool_decide (nm' = nm)
  end.

(** One of the classes of the node contains "content", whatever the case. *)
Definition has_content_class (n : node) : bool :=
  match n with
  | NavigableString _ => false
  | Tag _ a _ =>
      match a !! "class" with
      | Some v => existsb (λ c, Py.contains (Py.lower c) "content") (Py.tokens v)
      | None => false
      end
  end.

(** A [div] one of whose classes contains "content". *)
Definition is_content_div (n : node) : bool :=
  is_tag "div" n && has_content_class n.

(** The main-content element as the specification words it: the third
    choice is the first element of any tag with such a class. *)
Definition claimed_main_content_element (soup : BeautifulSoup) : option node :=
  or_else (find (named "main") soup)
    (or_else (find (named "article") soup)
       (or_else (find (λ _ a, class_matches content_class a) soup)
          (find (named "body") soup))).

(** An anchor with an [href] attribute. *)
Definition is_anchor_with_href (n : node) : bool :=
  match n with
  | NavigableString _ => false
  | Tag nm a _ => bool_decide (nm = "a") && bool_decide (is_Some (a !! "href"))
  end.

(** A candidate link that is kept: visible text, and no fragment. *)
Definition link_kept (link : node) : bool :=
  Py.truthy (get_text "" link) && negb (Py.startswith (href_of link) "#").

Definition link_line (link : node) : string :=
  get_text "" link +:+ ": " +:+ href_of link.

(** The heading lines of all levels, lower levels first, document order
    within a level. *)
Definition all_heading_lines (soup : BeautifulSoup) : list string :=
  flat_map
    (λ level,
       map (heading_line level)
         (List.filter (is_tag ("h" +:+ Py.str_of_nat level)) (descendants soup)))
    [1; 2; 3; 4; 5; 6].

(** How a call of the provider fails, with the reason: it raises an
    exception that derives from [Exception] (an API error, a timeout), or
    its response has no first choice with a content.  An interrupt or an
    exit raised during the call is not a failure of the provider. *)
Definition failure_reason (r : completion) : option string :=
  match r with
  | Raises (Exception reason) => Some reason
  | Raises (BaseException _) => None
  | Response [] => Some "list index out of range"
  | Response (None :: _) => Some "'NoneType' object has no attribute 'strip'"
  | Response (Some _ :: _) => None
  end.

(** The answer of a call that succeeds. *)
Definition answer_of (r : completion) : option string :=
  match r with
  | Response (Some content :: _) => Some (Py.strip content)
  | _ => None
  end.

(** The messages of the provider for a question. *)
Definition prompt (self : chatbot) (user_input : string) : list message :=
  Message "system" (system_message (website_content self))
  :: last_entries 10 (conversation_history self) ++ [Message "user" user_input].

(** *** Documents used as examples *)

(** A page whose only title is that of a logo drawn in its header. *)
Definition logo_page : BeautifulSoup :=
  [Tag "html" ∅
     [Tag "body" ∅
        [Tag "header" ∅
           [Tag "svg" ∅ [Tag "title" ∅ [NavigableString "Logo"]]];
         Tag "p" ∅ [NavigableString "Hello"]]]].

(** A page whose description is written with spaces around it. *)
Definition padded_description_page : BeautifulSoup :=
  [Tag "html" ∅
     [Tag "head" ∅
        [Tag "meta" (<["name" := "description"]> {["content" := " Acme Corp home "]}) []]]].

(** The page of the scenario of the specification: a title, a
    description, one heading and three links, one of them a fragment. *)
Definition acme_page : BeautifulSoup :=
  [Tag "html" ∅
     [Tag "head" ∅
        [Tag "title" ∅ [NavigableString "Acme"];
         Tag "meta" (<["name" := "description"]> {["content" := "Acme Corp home"]}) []];
      Tag "body" ∅
        [Tag "h1" ∅ [NavigableString "Welcome"];
         Tag "a" {["href" := "#top"]} [NavigableString "Top"];
         Tag "a" {["href" := "/about"]} [NavigableString "About"];
         Tag "a" {["href" := "/contact"]} [NavigableString "Contact"]]]].

(** A page with an empty title and an empty heading. *)
Definition blank_page : BeautifulSoup :=
  [Tag "html" ∅
     [Tag "head" ∅ [Tag "title" ∅ []];
      Tag "body" ∅ [Tag "h1" ∅ []]]].

(** A page whose content sits in a [section] of class [content]. *)
Definition section_page : BeautifulSoup :=
  [Tag "html" ∅
     [Tag "body" ∅
        [Tag "section" {["class" := "content"]} [NavigableString "Story"];
         Tag "p" ∅ [NavigableString "Legal notice"]]]].

End Spec.

(** ** ConsoleInterface *)

Module ConsoleInterface.
Import Chatbot.

(** What [input] does on one call: it returns the line typed, or it
    raises [EOFError] or [KeyboardInterrupt]. *)
Inductive keyboard :=
| Typed (line : string)
| EndOfFile
| Interrupt.

Definition get_user_input (k : keyboard) : string :=
  match k with
  | Typed line => Py.strip line
  | EndOfFile | Interrupt => "exit"
  end.

(** The branch of the loop body taken for an input. *)
Inductive command :=
| Quit
| ClearHistory
| Nothing
| Question.

Definition command_of (user_input : string) : command :=
  if bool_decide (Py.lower user_input ∈ ["exit"; "quit"]) then Quit
  else if bool_decide (Py.lower user_input = "clear") then ClearHistory
  else if negb (Py.truthy user_input) then Nothing
  else Question.

(** How the loop ends: with the farewell, or on an exception of
    [get_response] that does not derive from [Exception]: a
    [KeyboardInterrupt], which [run] catches to stop the loop, or another
    one, which leaves [run].  The loop is over in both cases and the model
    does not tell them apart. *)
Inductive ending :=
| Farewell
| Broken (e : exn).

(** A run of the console: the chatbot it leaves, the responses handed
    to [display_response] in order, and how it ended.  Printing is left
    out otherwise. *)
Record session := {
  final : chatbot;
  displayed : list string;
  ended : ending
}.

Definition display_response (response : string) (s : session) : session :=
  {| final := final s; displayed := response :: displayed s; ended := ended s |}.

(** [run]: one turn of the loop for each call of [input]; a turn comes
    with what the provider does if it is asked.  When nothing is left to
    read, [input] raises [EOFError] and [get_user_input] gives [exit]. *)
Fixpoint run (turns : list (keyboard * client)) (bot : chatbot) : session :=
  match turns with
  | [] => {| final := bot; displayed := []; ended := Farewell |}
  | (k, c) :: turns' =>
      let user_input := get_user_input k in
      match command_of user_input with
      | Quit => {| final := bot; displayed := []; ended := Farewell |}
      | ClearHistory => run turns' (clear_history bot).2
      | Nothing => run turns' bot
      | Question =>
          match get_response c user_input bot with
          | (inr response, bot') => display_response response (run turns' bot')
          | (inl (Exception _), bot') => run turns' bot'
          | (inl (BaseException msg), bot') =>
              {| final := bot'; displayed := []; ended := Broken (BaseException msg) |}
          end
      end
  end.

End ConsoleInterface.

(** ** The entry point *)

Module Program.
Import WebsiteScraper Chatbot ConsoleInterface.

(** [setup_environment], given the value of [OPENAI_API_KEY] in the
    environment, if any. *)
Definition setup_environment (env_key : option string) : option string * bool :=
  match env_key with
  | Some api_key => if Py.truthy api_key then (Some api_key, true) else (None, false)
  | None => (None, false)
  end.

(** [if not url.startswith(('http://', 'https://')): url = 'https://' + url] *)
Definition with_scheme (url : string) : string :=
  if negb (Py.startswith url "http://" || Py.startswith url "https://")
  then "https://" +:+ url
  else url.

(** The loop that asks for the URL: the first line that is not blank,
    stripped and given a scheme, with what is left to read.  [None] when
    [input] raises before such a line: nothing catches it. *)
Fixpoint read_url (stdin : list (keyboard * client)) : option (string * list (keyboard * client)) :=
  match stdin with
  | [] => None
  | (Typed line, _) :: rest =>
      let url := Py.strip line in
      if Py.truthy url then Some (with_scheme url, rest) else read_url rest
  | (EndOfFile, _) :: _ | (Interrupt, _) :: _ => None
  end.

Inductive result :=
| SysExit (status : nat)
| Uncaught
| Session (url : string) (s : session).

(** [main], given the environment, the network as a function from the
    URL to what the request gives, and what is typed.  A session is
    recorded with the URL that was fetched. *)
Definition main (env_key : option string) (fetch : string → fetched)
    (stdin : list (keyboard * client)) : result :=
  let '(api_key, success) := setup_environment env_key in
  if negb success then SysExit 1
  else
    match read_url stdin with
    | None => Uncaught
    | Some (url, stdin) =>
        let website_content := scrape_website (fetch url) in
        if bool_decide (website_content = ∅) then SysExit 1
        else
          let chatbot := set_website_context website_content init in
          Session url (run stdin chatbot)
    end.

End Program.

(** ** The demonstration script *)

Module Demo.
Import Chatbot.

(** [demo_content_processing] of [demo_example.py], printing left out. *)
Definition demo_content_processing (content : gmap string string) : string :=
  if bool_decide (content = ∅) then ""
  else
    let context_parts := [] in
    let context_parts :=
      append_if context_parts "Title: " (get_truthy content "title") in
    let context_parts :=
      append_if context_parts "Description: " (get_truthy content "description") in
    let context_parts :=
      match get_truthy content "main_content" with
      | Some main_content =>
          context_parts ++ ["Main Content: " +:+ Py.take 200 main_content +:+ "..."]
      | None => context_parts
      end in
    Py.join Py.nl context_parts.

End Demo.

(** ** Further notions for the statements *)

Module Notions.
Import WebsiteScraper Chatbot.

(** One exchange in the history: the question, then the answer. *)
Definition exchange (p : string * string) : list message :=
  [Message "user" p.1; Message "assistant" p.2].

(** The history made of the exchanges, oldest first. *)
Definition transcript (exchanges : list (string * string)) : list message :=
  flat_map exchange exchanges.

(** The history is a transcript whose answers are trimmed. *)
Definition well_formed (self : chatbot) : Prop :=
  ∃ xs, conversation_history self = transcript xs ∧ Forall (λ p, Spec.trimmed p.2) xs.

(** The lines kept for the full text: those of the text of the page that
    are not blank, stripped. *)
Definition clean_lines (soup : BeautifulSoup) : list string :=
  map Py.strip
    (List.filter (λ line, Py.truthy (Py.strip line))
       (Py.split "010" (soup_get_text Py.nl soup))).


(** The URL names its scheme. *)
Definition has_scheme (url : string) : bool :=
  Py.startswith url "http://" || Py.startswith url "https://".

(** A page served by a site, for the examples. *)
Definition acme_site (url : string) : fetched :=
  if bool_decide (url = "https://acme.example") then Page Spec.acme_page
  else RequestException "404 Client Error".

End Notions.

(** ** Facts on strings *)

Module PyFacts.
Import Py.

Lemma length_take n s : String.length (take n s) ≤ n.
Proof.
  revert s. induction n as [|n IH]; intros [|c s]; simpl; try lia.
  specialize (IH s). lia.
Qed.

Lemma truthy_take n s : truthy (take (S n) s) = truthy s.
Proof. by destruct s. Qed.

Lemma take_truthy n s : 0 < n → truthy s = true → truthy (take n s) = true.
Proof. destruct n; [lia|]. intros _. by rewrite truthy_take. Qed.

Lemma truthy_app a b : truthy (a +:+ b) = truthy a || truthy b.
Proof. by destruct a. Qed.

Lemma truthy_join_cons sep s l : truthy s = true → truthy (join sep (s :: l)) = true.
Proof.
  intros Hs. destruct l as [|s' l]; simpl; [done|].
  by rewrite truthy_app, Hs.
Qed.

End PyFacts.

(** ** Facts on documents *)

Module TreeFacts.

Lemma filter_flat_map {A B} (p : B → bool) (f : A → list B) l :
  List.filter p (flat_map f l) = flat_map (λ x, List.filter p (f x)) l.
Proof.
  induction l as [|x l IH]; simpl; [done|].
  by rewrite List.filter_app, IH.
Qed.

Lemma flat_map_nil {A B} (f : A → list B) l :
  Forall (λ x, f x = []) l → flat_map f l = [].
Proof. induction 1 as [|x l Hx _ IH]; simpl; [done|]. by rewrite Hx, IH. Qed.

Lemma located_in_snd n : ∀ enclosing,
  map snd (located_in enclosing n) = self_and_descendants n.
Proof.
  induction n as [s|nm a cs IH] using node_ind'; intros enclosing; simpl; [done|].
  f_equal. induction IH as [|c cs Hc _ IHcs]; simpl; [done|].
  by rewrite map_app, Hc, IHcs.
Qed.

Lemma located_snd t : map snd (located t) = descendants t.
Proof.
  unfold located, descendants. induction t as [|c t IH]; simpl; [done|].
  by rewrite map_app, located_in_snd, IH.
Qed.

Lemma decompose_all_cons nms c t :
  decompose_all nms (c :: t) =
  (if matches (named_in nms) c then [] else [decompose_node nms c]) ++ decompose_all nms t.
Proof. reflexivity. Qed.

Lemma matches_decompose_node m nms n :
  matches m (decompose_node nms n) = matches m n.
Proof. by destruct n. Qed.

Lemma free_of_snoc nms enclosing nm :
  free_of nms (enclosing ++ [nm]) = free_of nms enclosing && negb (bool_decide (nm ∈ nms)).
Proof. unfold free_of. rewrite forallb_app. simpl. by rewrite andb_true_r. Qed.

(** Below a removed tag nothing is outside. *)
Lemma nothing_outside_below nms n : ∀ enclosing,
  free_of nms enclosing = false →
  List.filter (outside nms) (located_in enclosing n) = [].
Proof.
  induction n as [s|nm a cs IH] using node_ind'; intros enclosing Hf; simpl;
    unfold outside at 1; simpl; rewrite Hf; simpl; [done|].
  rewrite filter_flat_map. apply flat_map_nil.
  eapply Forall_impl; [exact IH|]. intros c Hc. apply Hc.
  by rewrite free_of_snoc, Hf.
Qed.

(** The nodes of the tree left by the removal are the nodes of the
    source that were outside the removed tags, in the same order. *)
Lemma descendants_decompose_node nms n : ∀ enclosing,
  free_of nms enclosing = true →
  map (λ p, decompose_node nms p.2) (List.filter (outside nms) (located_in enclosing n)) =
  if matches (named_in nms) n then [] else self_and_descendants (decompose_node nms n).
Proof.
  induction n as [s|nm a cs IH] using node_ind'; intros enclosing Hf; simpl;
    unfold outside at 1; simpl; rewrite Hf; simpl; [done|].
  unfold named_in at 1 2. destruct (bool_decide (nm ∈ nms)) eqn:Hnm; simpl.
  - rewrite filter_flat_map, flat_map_nil; [done|].
    apply Forall_forall. intros c _. apply nothing_outside_below.
    by rewrite free_of_snoc, Hf, Hnm.
  - f_equal. assert (Hf' : free_of nms (enclosing ++ [nm]) = true)
      by (by rewrite free_of_snoc, Hf, Hnm).
    induction IH as [|c cs Hc _ IHcs]; simpl; [done|].
    rewrite List.filter_app, map_app, (Hc _ Hf'), IHcs.
    by destruct (matches (named_in nms) c).
Qed.

Lemma descendants_decompose_all nms t :
  descendants (decompose_all nms t) =
  map (λ p, decompose_node nms p.2) (List.filter (outside nms) (located t)).
Proof.
  unfold located, descendants. induction t as [|c t IH]; simpl; [done|].
  rewrite List.filter_app, map_app, <- IH.
  rewrite (descendants_decompose_node nms c []) by done.
  by destruct (matches (named_in nms) c).
Qed.

(** None of the named tags is left. *)
Lemma decompose_all_clean nms t :
  Forall (λ n, matches (named_in nms) n = false) (descendants (decompose_all nms t)).
Proof.
  rewrite descendants_decompose_all. apply Forall_forall. intros n Hn.
  apply list_elem_of_fmap in Hn as ([enc m] & -> & Hm).
  apply list_elem_of_In, filter_In in Hm as [_ Hm].
  unfold outside in Hm. apply andb_true_iff in Hm as [_ Hm].
  rewrite matches_decompose_node. simpl in *. by apply negb_true_iff.
Qed.

Lemma Forall_self (P : node → Prop) n :
  Forall P (self_and_descendants n) → P n.
Proof. destruct n; simpl; intros H; by apply Forall_cons in H as [? _]. Qed.

(** A tree without the named tags is left as it is. *)
Lemma decompose_node_id nms n :
  Forall (λ n, matches (named_in nms) n = false) (self_and_descendants n) →
  decompose_node nms n = n.
Proof.
  induction n as [s|nm a cs IH] using node_ind'; simpl; [done|].
  intros Hall. apply Forall_cons in Hall as [_ Hall]. f_equal.
  induction IH as [|c cs Hc _ IHcs]; simpl in *; [done|].
  apply Forall_app in Hall as [Hc' Hcs].
  rewrite (IHcs Hcs), (Hc Hc').
  by rewrite (Forall_self _ _ Hc').
Qed.

Lemma decompose_all_id nms t :
  Forall (λ n, matches (named_in nms) n = false) (descendants t) →
  decompose_all nms t = t.
Proof.
  unfold descendants. induction t as [|c t IH]; [done|].
  intros Hall. simpl in Hall. apply Forall_app in Hall as [Hc Ht].
  rewrite decompose_all_cons, (IH Ht), (decompose_node_id _ _ Hc).
  by rewrite (Forall_self _ _ Hc).
Qed.

Lemma decompose_all_twice nms' nms t :
  nms' ⊆ nms →
  decompose_all nms' (decompose_all nms t) = decompose_all nms t.
Proof.
  intros Hsub. apply decompose_all_id.
  eapply Forall_impl; [apply decompose_all_clean|].
  intros [s|nm a cs]; simpl; [done|]. unfold named_in.
  rewrite !bool_decide_eq_false. intros Hn Hn'. apply Hn, Hsub, Hn'.
Qed.

End TreeFacts.

(** ** Facts on the extractors *)

Module ScraperFacts.
Import WebsiteScraper Spec.

Lemma main_content_tree soup :
  (_extract_main_content soup).2 =
  decompose_all ["script"; "style"; "nav"; "footer"; "header"] soup.
Proof. unfold _extract_main_content. by destruct (main_content_element _). Qed.

Lemma full_text_tree soup :
  (_extract_full_text soup).2 = decompose_all ["script"; "style"; "nav"; "footer"] soup.
Proof. reflexivity. Qed.

(** The removal of the full text finds nothing to remove once the
    removal of the main content is done. *)
Lemma full_text_removal_done soup :
  decompose_all ["script"; "style"; "nav"; "footer"]
    (decompose_all ["script"; "style"; "nav"; "footer"; "header"] soup) =
  decompose_all ["script"; "style"; "nav"; "footer"; "header"] soup.
Proof.
  apply TreeFacts.decompose_all_twice.
  intros nm. rewrite !elem_of_cons, !elem_of_nil. tauto.
Qed.

(** The record and the tree of [extract], field by field.  The headings,
    the links and the full text are read in the tree that the main
    content left. *)
Lemma extract_unfold soup :
  let soup' := decompose_all ["script"; "style"; "nav"; "footer"; "header"] soup in
  extract soup =
  (<["title" := _extract_title soup]>
     (<["description" := _extract_description soup]>
        (<["main_content" := (_extract_main_content soup).1]>
           (<["headings" := _extract_headings soup']>
              (<["links" := _extract_links soup']>
                 (<["full_text" := (_extract_full_text soup').1]> ∅))))), soup').
Proof.
  intros soup'. unfold extract.
  pose proof (main_content_tree soup) as Hm.
  destruct (_extract_main_content soup) as [main_content soup1]. simpl in Hm. subst soup1.
  fold soup'.
  pose proof (full_text_tree soup') as Hf.
  destruct (_extract_full_text soup') as [full_text soup2]. simpl in Hf. subst soup2.
  simpl. f_equal. apply full_text_removal_done.
Qed.

Lemma main_content_length soup :
  String.length (_extract_main_content soup).1 ≤ 3000.
Proof.
  unfold _extract_main_content.
  destruct (main_content_element _) as [e|]; simpl.
  - destruct (Py.truthy _).
    + apply PyFacts.length_take.
    + apply Nat.leb_le. by vm_compute.
  - apply Nat.leb_le. by vm_compute.
Qed.

Lemma full_text_length soup :
  String.length (_extract_full_text soup).1 ≤ 5000.
Proof.
  unfold _extract_full_text. simpl.
  destruct (Py.truthy _).
  - apply PyFacts.length_take.
  - apply Nat.leb_le. by vm_compute.
Qed.

End ScraperFacts.

(** ** The claims *)

Import WebsiteScraper Chatbot Spec.

(** The scenario of the specification, run on the model. *)
Example acme_scenario :
  scrape_website (Page acme_page) !! "title" = Some "Acme" ∧
  scrape_website (Page acme_page) !! "description" = Some "Acme Corp home" ∧
  scrape_website (Page acme_page) !! "headings" = Some "H1: Welcome" ∧
  scrape_website (Page acme_page) !! "links" =
    Some ("About: /about" +:+ Py.nl +:+ "Contact: /contact").
Proof. split_and!; by vm_compute. Qed.

(** An empty title element gives the empty string, not the sentinel; an
    empty heading gives a line that ends with a space. *)
Example blank_page_fields :
  scrape_website (Page blank_page) !! "title" = Some "" ∧
  scrape_website (Page blank_page) !! "headings" = Some "H1: ".
Proof. split; by vm_compute. Qed.

(** A request that fails gives the empty record. *)
Example failed_request_gives_nothing e :
  scrape_website (RequestException e) = ∅.
Proof. reflexivity. Qed.

(** C9. For every document, the [main_content] field of the extracted
    record has at most 3000 characters and the [full_text] field has at
    most 5000. *)
Theorem truncation_bounds (soup : BeautifulSoup) :
  ∃ main_content full_text,
    scrape_website (Page soup) !! "main_content" = Some main_content ∧
    scrape_website (Page soup) !! "full_text" = Some full_text ∧
    String.length main_content ≤ 3000 ∧
    String.length full_text ≤ 5000.
Proof.
  unfold scrape_website. rewrite ScraperFacts.extract_unfold. simpl.
  eexists _, _. split_and!.
  - by simplify_map_eq.
  - by simplify_map_eq.
  - apply ScraperFacts.main_content_length.
  - apply ScraperFacts.full_text_length.
Qed.

(** C1, as the code has it.  The grounding context is the join by a line
    feed, in the order title, description, headings, main_content,
    links, of the labelled entries of exactly the fields that are there
    with a value that is not empty (a "not found" sentinel is such a
    value and is written like any other); it is the empty string exactly
    when each of the five fields is missing or empty. *)
Theorem format_joins_present_fields (content : gmap string string) :
  _format_content_for_context content = Py.join Py.nl (present_parts content) ∧
  Py.truthy (_format_content_for_context content) =
    existsb (λ kl, bool_decide (is_Some (get_truthy content kl.1))) labelled_fields.
Proof.
  unfold _format_content_for_context, present_parts, labelled_fields. simpl.
  destruct (get_truthy content "title") as [t|];
    destruct (get_truthy content "description") as [d|];
    destruct (get_truthy content "headings") as [h|];
    destruct (get_truthy content "main_content") as [m|];
    destruct (get_truthy content "links") as [l|];
    split; reflexivity.
Qed.

(** C1, counterexample.  The record extracted from the empty document has
    the sentinel in every field, and its grounding context is not the
    empty string. *)
Lemma format_of_sentinels_not_empty :
  scrape_website (Page []) = all_not_found ∧
  _format_content_for_context all_not_found ≠ "".
Proof. split; [by vm_compute|]. by vm_compute. Qed.

(** ** Facts on the conversation manager *)

Module ChatbotFacts.

Lemma build_messages_prompt user_input self :
  build_messages user_input self = (inr (prompt self user_input), self).
Proof. reflexivity. Qed.

(** What a call of [get_response] returns and leaves, by what the
    provider does. *)
Lemma get_response_cases c user_input self :
  get_response c user_input self =
  match c (prompt self user_input) with
  | Raises (Exception reason) => (inr (error_marker +:+ reason), self)
  | Raises (BaseException reason) => (inl (BaseException reason), self)
  | Response [] => (inr (error_marker +:+ "list index out of range"), self)
  | Response (None :: _) =>
      (inr (error_marker +:+ "'NoneType' object has no attribute 'strip'"), self)
  | Response (Some content :: _) =>
      (inr (Py.strip content),
       {| conversation_history :=
            conversation_history self ++
            [Message "user" user_input; Message "assistant" (Py.strip content)];
          website_content := website_content self |})
  end.
Proof.
  unfold get_response, try_except, mbind, M_bind, bind, create.
  rewrite build_messages_prompt.
  destruct (c (prompt self user_input)) as [[reason|reason]|[|[content|] choices]];
    try reflexivity.
  destruct self as [history website]. simpl. by rewrite <- app_assoc.
Qed.

Lemma get_response_history c user_input self :
  conversation_history (get_response c user_input self).2 =
  conversation_history self ++
  match answer_of (c (prompt self user_input)) with
  | Some answer => [Message "user" user_input; Message "assistant" answer]
  | None => []
  end.
Proof.
  rewrite get_response_cases.
  destruct (c (prompt self user_input)) as [[reason|reason]|[|[content|] choices]];
    simpl; by rewrite ?app_nil_r.
Qed.

Lemma perform_even self k :
  Nat.Even (length (conversation_history self)) →
  Nat.Even (length (conversation_history (perform self k))).
Proof.
  intros Heven. destruct k as [user_input c|]; simpl.
  - rewrite get_response_history, length_app.
    destruct (answer_of _); simpl.
    + destruct Heven as [n Hn]. exists (S n). lia.
    + by rewrite Nat.add_0_r.
  - by exists 0.
Qed.

Lemma run_even calls : ∀ self,
  Nat.Even (length (conversation_history self)) →
  Nat.Even (length (conversation_history (run calls self))).
Proof.
  induction calls as [|k calls IH]; intros self Heven; simpl; [done|].
  apply IH. by apply perform_even.
Qed.

Lemma last_entries_length {A} n (l : list A) :
  length (last_entries n l) = n `min` length l.
Proof. unfold last_entries. rewrite length_drop. lia. Qed.

Lemma last_entries_suffix {A} n (l : list A) :
  l = take (length l - n) l ++ last_entries n l.
Proof. unfold last_entries. by rewrite take_drop. Qed.

End ChatbotFacts.

(** C6. When the provider fails on a call of [get_response], whether it
    raises an exception or gives a response without a usable first
    choice, the method raises nothing: it returns the error marker
    followed by the reason of the failure, and [self], so the history,
    is left as it was. *)
Theorem provider_failure_is_reported (c : client) (user_input : string)
    (self : chatbot) (reason : string) :
  failure_reason (c (prompt self user_input)) = Some reason →
  get_response c user_input self = (inr (error_marker +:+ reason), self).
Proof.
  intros Hfail. rewrite ChatbotFacts.get_response_cases.
  destruct (c (prompt self user_input)) as [[r|r]|[|[content|] choices]];
    simpl in Hfail; by simplify_eq.
Qed.

(** C6 on a call that times out, asked of a fresh chatbot. *)
Lemma provider_failure_is_reported_witness :
  let timeout : client := λ _, Raises (Exception "Request timed out.") in
  failure_reason (timeout (prompt init "What is sold here?")) = Some "Request timed out." ∧
  get_response timeout "What is sold here?" init =
    (inr (error_marker +:+ "Request timed out."), init).
Proof.
  split; [reflexivity|].
  apply (provider_failure_is_reported _ "What is sold here?" init "Request timed out.").
  reflexivity.
Defined.

(** C7. After any sequence of questions and clearings that starts with
    an empty history, the length of the history is even; one more
    question appends the question and then the answer when the call
    succeeds and nothing when it fails; and the messages built for it
    are the system message, a window of the history and the question,
    where the window is the end of the history and has 10 entries, or
    all of them when there are fewer. *)
Theorem history_invariant (website : string) (calls : list call) :
  let self := run calls {| conversation_history := []; website_content := website |} in
  Nat.Even (length (conversation_history self)) ∧
  ∀ (user_input : string) (c : client),
    conversation_history (get_response c user_input self).2 =
      conversation_history self ++
      match answer_of (c (prompt self user_input)) with
      | Some answer => [Message "user" user_input; Message "assistant" answer]
      | None => []
      end ∧
    ∃ older window,
      conversation_history self = older ++ window ∧
      length window = 10 `min` length (conversation_history self) ∧
      build_messages user_input self =
        (inr (Message "system" (system_message (website_content self))
              :: window ++ [Message "user" user_input]), self).
Proof.
  intros self. split.
  - apply ChatbotFacts.run_even. by exists 0.
  - intros user_input c. split; [apply ChatbotFacts.get_response_history|].
    eexists _, (last_entries 10 (conversation_history self)). split_and!.
    + apply ChatbotFacts.last_entries_suffix.
    + apply ChatbotFacts.last_entries_length.
    + reflexivity.
Qed.

(** ** The loops of the extractors as list operations *)

Module LoopFacts.

Lemma collect_map {A} (f : A → string) l : ∀ acc,
  fold_left (λ acc x, acc ++ [f x]) l acc = acc ++ map f l.
Proof.
  induction l as [|x l IH]; intros acc; simpl; [by rewrite app_nil_r|].
  by rewrite IH, <- app_assoc.
Qed.

Lemma collect_filter_map {A} (p : A → bool) (f : A → string) l : ∀ acc,
  fold_left (λ acc x, if p x then acc ++ [f x] else acc) l acc =
  acc ++ map f (List.filter p l).
Proof.
  induction l as [|x l IH]; intros acc; simpl; [by rewrite app_nil_r|].
  rewrite IH. destruct (p x); simpl; [|done]. by rewrite <- app_assoc.
Qed.

Lemma collect_levels {A} (f : nat → A → string) (g : nat → list A) levels : ∀ acc,
  fold_left (λ acc level, fold_left (λ acc x, acc ++ [f level x]) (g level) acc) levels acc =
  acc ++ flat_map (λ level, map (f level) (g level)) levels.
Proof.
  induction levels as [|level levels IH]; intros acc; simpl; [by rewrite app_nil_r|].
  by rewrite IH, collect_map, <- app_assoc.
Qed.

Lemma find_all_named nm t :
  find_all (named nm) t = List.filter (is_tag nm) (descendants t).
Proof. unfold find_all. apply filter_ext. by intros [s|nm' a cs]. Qed.

Lemma find_all_anchors t :
  find_all (named_having "a" "href") t = List.filter is_anchor_with_href (descendants t).
Proof. unfold find_all. apply filter_ext. by intros [s|nm' a cs]. Qed.

Lemma collected_headings_lines soup :
  collected_headings soup = all_heading_lines soup.
Proof.
  unfold collected_headings, all_heading_lines.
  rewrite (collect_levels heading_line
             (λ level, find_all (named ("h" +:+ Py.str_of_nat level)) soup)).
  simpl. by rewrite !find_all_named.
Qed.

Lemma collected_links_kept soup :
  collected_links soup =
  map link_line
    (List.filter link_kept (take 15 (List.filter is_anchor_with_href (descendants soup)))).
Proof.
  unfold collected_links.
  rewrite (collect_filter_map link_kept link_line). simpl.
  by rewrite find_all_anchors.
Qed.

End LoopFacts.

(** C8. The headings field holds at most 20 entries.  The entries are
    the first 20 of the heading lines gathered level by level from 1 to
    6, in document order within a level, so the lower levels come first
    and take the room when there are more than 20; each entry is [H],
    the level, a colon, a space and the text of a heading of that level;
    the field is the sentinel when the document has no heading. *)
Theorem headings_capped (soup : BeautifulSoup) :
  let entries := take 20 (all_heading_lines soup) in
  collected_headings soup = all_heading_lines soup ∧
  _extract_headings soup =
    match all_heading_lines soup with
    | [] => "No headings found"
    | _ => Py.join Py.nl entries
    end ∧
  length entries ≤ 20 ∧
  Forall (λ line, ∃ (level : nat) (heading : node),
            1 ≤ level ≤ 6 ∧
            is_tag ("h" +:+ Py.str_of_nat level) heading = true ∧
            heading ∈ descendants soup ∧
            line = "H" +:+ Py.str_of_nat level +:+ ": " +:+ get_text "" heading)
         entries.
Proof.
  intros entries. split_and!.
  - apply LoopFacts.collected_headings_lines.
  - unfold _extract_headings. by rewrite LoopFacts.collected_headings_lines.
  - unfold entries. rewrite length_take. lia.
  - apply Forall_take, Forall_forall. intros line Hline.
    apply list_elem_of_In, in_flat_map in Hline as (level & Hlevel & Hline).
    apply in_map_iff in Hline as (heading & <- & Hheading).
    apply filter_In in Hheading as [Hin Htag].
    exists level, heading. split_and!; try done.
    + simpl in Hlevel. lia.
    + simpl in Hlevel. lia.
    + by apply list_elem_of_In.
Qed.

(** C5. The links are taken from a window of candidates, the first 15
    anchors with an [href] in document order; a candidate without
    visible text or whose [href] begins with [#] is dropped and no other
    anchor takes its place; each entry is the text, a colon, a space and
    the [href] of a kept candidate, so none has an empty text or a
    fragment; the field is the sentinel when no candidate is kept. *)
Theorem links_window (soup : BeautifulSoup) :
  let window := take 15 (List.filter is_anchor_with_href (descendants soup)) in
  let kept := List.filter link_kept window in
  collected_links soup = map link_line kept ∧
  _extract_links soup =
    match kept with
    | [] => "No links found"
    | _ => Py.join Py.nl (map link_line kept)
    end ∧
  length window ≤ 15 ∧
  Forall (λ link, is_anchor_with_href link = true ∧
                  Py.truthy (get_text "" link) = true ∧
                  Py.startswith (href_of link) "#" = false) kept.
Proof.
  intros window kept. split_and!.
  - apply LoopFacts.collected_links_kept.
  - unfold _extract_links. rewrite LoopFacts.collected_links_kept.
    fold window. fold kept. by destruct kept.
  - unfold window. rewrite length_take. lia.
  - apply Forall_forall. intros link Hlink.
    apply list_elem_of_In, filter_In in Hlink as [Hin Hkept].
    apply list_elem_of_In, (subseteq_take 15), list_elem_of_In, filter_In in Hin as [_ Ha].
    unfold link_kept in Hkept. apply andb_true_iff in Hkept as [Htext Hhref].
    by apply negb_true_iff in Hhref.
Qed.

(** ** Stripped text *)

Module StripFacts.
Import Py.

Lemma clean_start_lstrip s : clean_start (lstrip s) = true.
Proof.
  induction s as [|c s IH]; simpl; [done|].
  destruct (is_space c) eqn:Hc; simpl; [done|]. by rewrite Hc.
Qed.

Lemma clean_start_rstrip s : clean_start s = true → clean_start (rstrip s) = true.
Proof.
  destruct s as [|c s]; simpl; [done|]. intros Hc.
  destruct (rstrip s); simpl; [|done].
  apply negb_true_iff in Hc. by rewrite Hc; simpl; rewrite Hc.
Qed.

Lemma lstrip_clean_start s : clean_start s = true → lstrip s = s.
Proof.
  destruct s as [|c s]; simpl; [done|]. intros Hc.
  apply negb_true_iff in Hc. by rewrite Hc.
Qed.

Lemma rstrip_idem s : rstrip (rstrip s) = rstrip s.
Proof.
  induction s as [|c s IH]; simpl; [done|].
  destruct (rstrip s) as [|d r] eqn:Hr.
  - destruct (is_space c) eqn:Hc; simpl; [done|]. by rewrite Hc.
  - change (rstrip (String c (String d r))) with
      (match rstrip (String d r) with
       | "" => if is_space c then "" else String c ""
       | String a r' => String c (String a r')
       end).
    by rewrite IH.
Qed.

Lemma rstrip_app a b :
  truthy b = true → rstrip b = b → rstrip (a +:+ b) = a +:+ b.
Proof.
  intros Hb Hr. induction a as [|c a IH]; [done|].
  change (String c a +:+ b) with (String c (a +:+ b)). simpl. rewrite IH.
  destruct (a +:+ b) eqn:Hab; [|done].
  destruct a; [|done]. change ("" +:+ b) with b in Hab. by subst b.
Qed.

Lemma clean_start_app a b :
  truthy a = true → clean_start a = true → clean_start (a +:+ b) = true.
Proof. by destruct a. Qed.

Lemma trimmed_intro s : clean_start s = true → rstrip s = s → trimmed s.
Proof.
  intros Hs Hr. unfold trimmed, strip. by rewrite (lstrip_clean_start s Hs).
Qed.

Lemma strip_clean s : clean_start (strip s) = true ∧ rstrip (strip s) = strip s.
Proof.
  unfold strip. split.
  - apply clean_start_rstrip, clean_start_lstrip.
  - apply rstrip_idem.
Qed.

(** Pieces that are stripped and not empty, put side by side, make a
    trimmed string. *)
Lemma join_clean l :
  Forall (λ s, truthy s = true ∧ clean_start s = true ∧ rstrip s = s) l →
  clean_start (join "" l) = true ∧ rstrip (join "" l) = join "" l.
Proof.
  induction 1 as [|s l (Ht & Hs & Hr) Hl [IHs IHr]]; [done|].
  destruct l as [|s' l]; [done|].
  change (join "" (s :: s' :: l)) with (s +:+ join "" (s' :: l)).
  split; [by apply clean_start_app|].
  apply rstrip_app; [|done].
  apply Forall_cons in Hl as [(Ht' & _) _]. by apply PyFacts.truthy_join_cons.
Qed.

Lemma stripped_strings_clean t :
  Forall (λ s, truthy s = true ∧ clean_start s = true ∧ rstrip s = s) (stripped_strings t).
Proof.
  unfold stripped_strings. apply Forall_forall. intros s Hs.
  apply list_elem_of_In, in_flat_map in Hs as (n & _ & Hs).
  destruct n as [x|]; [|done].
  simpl in Hs. destruct (truthy (strip x)) eqn:Hx; [|done].
  destruct Hs as [<-|[]]. split; [done|]. apply strip_clean.
Qed.

Lemma get_text_trimmed n : trimmed (get_text "" n).
Proof.
  destruct (join_clean _ (stripped_strings_clean (contents_of n))).
  by apply trimmed_intro.
Qed.

End StripFacts.

(** ** The shape of the fields *)

Module FieldFacts.

Lemma title_trimmed soup : trimmed (_extract_title soup).
Proof.
  unfold _extract_title. destruct (find _ _) as [title_tag|].
  - apply StripFacts.get_text_trimmed.
  - by vm_compute.
Qed.

Lemma description_truthy soup : Py.truthy (_extract_description soup) = true.
Proof.
  unfold _extract_description.
  destruct (find _ _) as [meta_desc|]; [|done].
  destruct (attrs_of meta_desc !! "content") as [c|]; [|done].
  by destruct (Py.truthy c) eqn:Hc.
Qed.

Lemma main_content_truthy soup : Py.truthy (_extract_main_content soup).1 = true.
Proof.
  unfold _extract_main_content.
  destruct (main_content_element _) as [e|]; [|done]. simpl.
  destruct (Py.truthy (get_text Py.nl e)) eqn:He; [|done].
  apply PyFacts.take_truthy; [lia|done].
Qed.

Lemma full_text_truthy soup : Py.truthy (_extract_full_text soup).1 = true.
Proof.
  unfold _extract_full_text. simpl.
  destruct (Py.truthy (Py.join _ _)) eqn:He; [|done].
  apply PyFacts.take_truthy; [lia|done].
Qed.

Lemma heading_lines_truthy soup :
  Forall (λ line, Py.truthy line = true) (all_heading_lines soup).
Proof.
  apply Forall_forall. intros line Hline.
  apply list_elem_of_In, in_flat_map in Hline as (level & _ & Hline).
  by apply in_map_iff in Hline as (heading & <- & _).
Qed.

Lemma headings_truthy soup : Py.truthy (_extract_headings soup) = true.
Proof.
  unfold _extract_headings. rewrite LoopFacts.collected_headings_lines.
  pose proof (heading_lines_truthy soup) as Hall.
  destruct (all_heading_lines soup) as [|line lines]; [done|].
  apply Forall_cons in Hall as [Hline _].
  change (take 20 (line :: lines)) with (line :: take 19 lines).
  by apply PyFacts.truthy_join_cons.
Qed.

Lemma links_truthy soup : Py.truthy (_extract_links soup) = true.
Proof.
  unfold _extract_links. rewrite LoopFacts.collected_links_kept.
  destruct (List.filter _ _) as [|link links]; [done|].
  change (map link_line (link :: links)) with (link_line link :: map link_line links).
  apply PyFacts.truthy_join_cons. unfold link_line.
  rewrite PyFacts.truthy_app. apply orb_true_r.
Qed.

End FieldFacts.

(** C3, as the code has it.  The record extracted from a document has
    exactly the six keys.  The title has no leading and no trailing
    white space; the description, the main content, the headings, the
    links and the full text are never empty.  They need not be trimmed:
    the description is the attribute as written, a heading line ends
    with a space when the heading has no text, a link line ends like its
    [href], and a truncation may end on white space. *)
Theorem fields_all_there (soup : BeautifulSoup) :
  ∃ title description main_content headings links full_text,
    scrape_website (Page soup) =
      <["title" := title]>
        (<["description" := description]>
           (<["main_content" := main_content]>
              (<["headings" := headings]>
                 (<["links" := links]>
                    (<["full_text" := full_text]> ∅))))) ∧
    trimmed title ∧
    Py.truthy description = true ∧
    Py.truthy main_content = true ∧
    Py.truthy headings = true ∧
    Py.truthy links = true ∧
    Py.truthy full_text = true.
Proof.
  unfold scrape_website. rewrite ScraperFacts.extract_unfold.
  eexists _, _, _, _, _, _. split; [reflexivity|]. split_and!.
  - apply FieldFacts.title_trimmed.
  - apply FieldFacts.description_truthy.
  - apply FieldFacts.main_content_truthy.
  - apply FieldFacts.headings_truthy.
  - apply FieldFacts.links_truthy.
  - apply FieldFacts.full_text_truthy.
Qed.

(** C3, counterexample.  The description of a page is the value of the
    attribute as it is written: with spaces around it, it is neither the
    sentinel nor trimmed text. *)
Lemma description_not_trimmed :
  scrape_website (Page padded_description_page) !! "description" = Some " Acme Corp home " ∧
  ¬ sentinel_or_trimmed_text "No description found" " Acme Corp home ".
Proof.
  split; [by vm_compute|].
  intros [Heq|[_ Htrim]]; [discriminate Heq|].
  vm_compute in Htrim. discriminate Htrim.
Qed.

(** ** The class criterion of the main content *)

Module ClassFacts.
Import Py.

Lemma lower_app a b : lower (a +:+ b) = lower a +:+ lower b.
Proof.
  induction a as [|c a IH]; [done|].
  change (String c a +:+ b) with (String c (a +:+ b)). simpl. by rewrite IH.
Qed.

Lemma startswith_nil s : startswith s "" = true.
Proof. by destruct s. Qed.

Lemma contains_nil s : contains s "" = true.
Proof. destruct s; simpl; by rewrite ?startswith_nil. Qed.

(** A pattern without [c] that begins in [a] ends in [a]. *)
Lemma startswith_before a c b : ∀ p,
  lacks c p = true →
  startswith (a +:+ String c b) p = true → startswith a p = true.
Proof.
  induction a as [|x a IH]; intros [|q p] Hp; simpl; try done.
  - change ("" +:+ String c b) with (String c b). simpl.
    apply andb_true_iff in Hp as [Hq _]. apply negb_true_iff in Hq.
    by rewrite Hq.
  - change (String x a +:+ String c b) with (String x (a +:+ String c b)). simpl.
    apply andb_true_iff in Hp as [_ Hp].
    intros [Hx Hs]%andb_true_iff. rewrite Hx. simpl. by apply IH.
Qed.

Lemma contains_after c b p :
  lacks c p = true → contains (String c b) p = true → contains b p = true.
Proof.
  intros Hp. simpl. intros [Hs|Hb]%orb_true_iff; [|done].
  destruct p as [|q p]; [apply contains_nil|].
  simpl in *. apply andb_true_iff in Hp as [Hq _]. apply negb_true_iff in Hq.
  by rewrite Hq in Hs.
Qed.

(** A pattern without [c] found in [a c b] is found in [a] or in [b]. *)
Lemma contains_split a c b p :
  lacks c p = true →
  contains (a +:+ String c b) p = true →
  contains a p = true ∨ contains b p = true.
Proof.
  intros Hp. induction a as [|x a IH].
  - change ("" +:+ String c b) with (String c b). right. by eapply contains_after.
  - change (String x a +:+ String c b) with (String x (a +:+ String c b)).
    intros Hc. simpl in Hc. apply orb_true_iff in Hc as [Hs|Hc].
    + left. simpl. apply orb_true_iff. left.
      by apply (startswith_before (String x a) c b).
    + destruct (IH Hc) as [Ha|Hb]; [left|by right].
      simpl. by rewrite Ha, orb_true_r.
Qed.

Lemma contains_join cls :
  contains (lower (join " " cls)) "content" = true →
  existsb (λ c, contains (lower c) "content") cls = true.
Proof.
  induction cls as [|x cls IH]; [done|].
  destruct cls as [|y cls].
  - simpl. intros ->. done.
  - change (join " " (x :: y :: cls)) with (x +:+ String " " (join " " (y :: cls))).
    rewrite lower_app.
    change (lower (String " " (join " " (y :: cls))))
      with (String " "%char (lower (join " " (y :: cls)))).
    intros Hc. apply contains_split in Hc as [Hx|Hrest]; [| |done].
    + simpl. by rewrite Hx.
    + change (existsb _ (x :: y :: cls)) with
        (contains (lower x) "content" ||
         existsb (λ c, contains (lower c) "content") (y :: cls)).
      rewrite (IH Hrest). apply orb_true_r.
Qed.

Lemma content_class_some x :
  WebsiteScraper.content_class (Some x) = contains (lower x) "content".
Proof. by destruct x. Qed.

Lemma content_class_tokens cls :
  existsb (λ c, WebsiteScraper.content_class (Some c)) cls =
  existsb (λ c, contains (lower c) "content") cls.
Proof.
  induction cls as [|x cls IH]; [done|].
  cbn [existsb]. by rewrite IH, content_class_some.
Qed.

(** The function given as [class_] holds of a tag exactly when one of
    its classes contains "content", whatever the case. *)
Lemma class_matches_content a :
  class_matches WebsiteScraper.content_class a =
  match a !! "class" with
  | Some v => existsb (λ c, contains (lower c) "content") (tokens v)
  | None => false
  end.
Proof.
  unfold class_matches. destruct (a !! "class") as [v|]; [|done].
  rewrite content_class_some.
  rewrite content_class_tokens.
  destruct (existsb _ (tokens v)) eqn:He; [done|]. simpl.
  destruct (contains (lower (join " " (tokens v))) "content") eqn:Hj; [|done].
  apply contains_join in Hj. congruence.
Qed.

Lemma matches_content_div n :
  matches (named_with_class "div" WebsiteScraper.content_class) n = is_content_div n.
Proof.
  destruct n as [s|nm a cs]; [done|].
  simpl. unfold named_with_class. by rewrite class_matches_content.
Qed.

Lemma first_filter (p : node → bool) l :
  first_in_order p l (head (List.filter p l)).
Proof.
  induction l as [|x l IH]; simpl; [by constructor|].
  destruct (p x) eqn:Hx; simpl.
  - exists [], l. by repeat split.
  - destruct (head (List.filter p l)) as [e|]; simpl in *.
    + destruct IH as (l1 & l2 & -> & He & Hl1).
      exists (x :: l1), l2. repeat split; [done|]. by constructor.
    + by constructor.
Qed.

Lemma find_first (m : criterion) (p : node → bool) t :
  (∀ n, matches m n = p n) →
  first_in_order p (descendants t) (find m t).
Proof.
  intros Hmp. unfold find, find_all.
  rewrite (filter_ext _ _ Hmp). apply first_filter.
Qed.

End ClassFacts.

(** C4, as the code has it.  In the tree left by the removal, the
    main-content element is the first available of: the first [main]
    element, the first [article] element, the first [div] element one of
    whose classes contains "content" whatever the case, and the first
    [body] element, first meaning first in document order; its text,
    cut at 3000 characters, is the main content, and so is the sentinel
    when there is no such element or no text. *)
Theorem main_content_priority (soup : BeautifulSoup) :
  let tree := decompose_all ["script"; "style"; "nav"; "footer"; "header"] soup in
  ∃ main article div body,
    first_in_order (is_tag "main") (descendants tree) main ∧
    first_in_order (is_tag "article") (descendants tree) article ∧
    first_in_order is_content_div (descendants tree) div ∧
    first_in_order (is_tag "body") (descendants tree) body ∧
    main_content_element tree = or_else main (or_else article (or_else div body)) ∧
    (_extract_main_content soup).1 =
      main_content_of (or_else main (or_else article (or_else div body))).
Proof.
  intros tree.
  exists (find (named "main") tree), (find (named "article") tree),
    (find (named_with_class "div" content_class) tree), (find (named "body") tree).
  split_and!.
  - apply ClassFacts.find_first. by intros [s|nm a cs].
  - apply ClassFacts.find_first. by intros [s|nm a cs].
  - apply ClassFacts.find_first, ClassFacts.matches_content_div.
  - apply ClassFacts.find_first. by intros [s|nm a cs].
  - reflexivity.
  - unfold _extract_main_content. fold tree.
    change (or_else _ _) with (main_content_element tree).
    by destruct (main_content_element tree).
Qed.

(** C4, counterexample.  On a page whose content is in a [section] of
    class [content], the specification would choose the section; the
    code looks for the class on [div] elements only and falls back on
    the body, so the main content also has the text outside the section. *)
Lemma section_class_not_chosen :
  let tree := decompose_all ["script"; "style"; "nav"; "footer"; "header"] section_page in
  claimed_main_content_element tree =
    Some (Tag "section" {["class" := "content"]} [NavigableString "Story"]) ∧
  main_content_element tree = find (named "body") tree ∧
  main_content_element tree ≠ claimed_main_content_element tree ∧
  (_extract_main_content section_page).1 = "Story" +:+ Py.nl +:+ "Legal notice".
Proof.
  split_and!; by vm_compute.
Qed.

(** ** Extraction and the shared tree *)

Module SharedTreeFacts.

Lemma main_content_removal_done soup :
  decompose_all ["script"; "style"; "nav"; "footer"; "header"]
    (decompose_all ["script"; "style"; "nav"; "footer"; "header"] soup) =
  decompose_all ["script"; "style"; "nav"; "footer"; "header"] soup.
Proof. apply TreeFacts.decompose_all_twice. by intros nm Hnm. Qed.

Lemma main_content_again soup :
  _extract_main_content (decompose_all ["script"; "style"; "nav"; "footer"; "header"] soup) =
  _extract_main_content soup.
Proof. unfold _extract_main_content. by rewrite main_content_removal_done. Qed.

Lemma extract_again soup :
  let soup' := decompose_all ["script"; "style"; "nav"; "footer"; "header"] soup in
  extract soup' =
  (<["title" := _extract_title soup']>
     (<["description" := _extract_description soup']>
        (<["main_content" := (_extract_main_content soup).1]>
           (<["headings" := _extract_headings soup']>
              (<["links" := _extract_links soup']>
                 (<["full_text" := (_extract_full_text soup').1]> ∅))))), soup').
Proof.
  intros soup'. subst soup'. rewrite ScraperFacts.extract_unfold. cbv zeta.
  by rewrite !main_content_removal_done, main_content_again.
Qed.

End SharedTreeFacts.

(** C2, as the code has it.  The removal is done in place, on the tree
    shared by the extractors: extraction leaves the tree without its
    script, style, nav, footer and header elements.  Extracting again
    from the tree so left changes it no more and gives the same main
    content, headings, links and full text; from then on extraction
    gives the same record each time. *)
Theorem extraction_in_place (soup : BeautifulSoup) :
  let first := extract soup in
  let second := extract first.2 in
  first.2 = decompose_all ["script"; "style"; "nav"; "footer"; "header"] soup ∧
  second.2 = first.2 ∧
  second.1 !! "main_content" = first.1 !! "main_content" ∧
  second.1 !! "headings" = first.1 !! "headings" ∧
  second.1 !! "links" = first.1 !! "links" ∧
  second.1 !! "full_text" = first.1 !! "full_text" ∧
  extract second.2 = second.
Proof.
  intros first second.
  assert (Hfirst : first.2 = decompose_all ["script"; "style"; "nav"; "footer"; "header"] soup)
    by (unfold first; by rewrite ScraperFacts.extract_unfold).
  assert (Hsecond : second.2 = first.2).
  { unfold second. rewrite Hfirst. by rewrite SharedTreeFacts.extract_again. }
  split_and!; try done.
  - unfold second, first. rewrite (ScraperFacts.extract_unfold soup). cbv zeta.
    cbn [snd]. rewrite SharedTreeFacts.extract_again. by simplify_map_eq.
  - unfold second, first. rewrite (ScraperFacts.extract_unfold soup). cbv zeta.
    cbn [snd]. rewrite SharedTreeFacts.extract_again. by simplify_map_eq.
  - unfold second, first. rewrite (ScraperFacts.extract_unfold soup). cbv zeta.
    cbn [snd]. rewrite SharedTreeFacts.extract_again. by simplify_map_eq.
  - unfold second, first. rewrite (ScraperFacts.extract_unfold soup). cbv zeta.
    cbn [snd]. rewrite SharedTreeFacts.extract_again. by simplify_map_eq.
  - rewrite Hsecond. by unfold second.
Qed.

(** C2, counterexample.  Extraction destroys the header of the tree it
    is given; the title of the page was in it, so a second extraction
    from the same tree does not find it and gives another record. *)
Lemma extraction_changes_the_tree :
  (extract logo_page).2 ≠ logo_page ∧
  (extract logo_page).1 !! "title" = Some "Logo" ∧
  (extract (extract logo_page).2).1 !! "title" = Some "No title found" ∧
  (extract (extract logo_page).2).1 ≠ (extract logo_page).1.
Proof.
  split_and!; by vm_compute.
Qed.

(** C10. The main content is extracted before the headings, the links
    and the full text, and its removal is done on the tree they share.
    So these three fields are read in the tree left by the removal: no
    script, style, nav, footer or header element is in it, and its nodes
    are the nodes of the page that are none of these elements and lie
    inside none, in document order, each without the removed elements
    it held. *)
Theorem removed_elements_not_read (soup : BeautifulSoup) :
  let removed := ["script"; "style"; "nav"; "footer"; "header"] in
  let tree := decompose_all removed soup in
  let content := scrape_website (Page soup) in
  content !! "headings" = Some (_extract_headings tree) ∧
  content !! "links" = Some (_extract_links tree) ∧
  content !! "full_text" = Some (_extract_full_text tree).1 ∧
  (_extract_full_text tree).2 = tree ∧
  descendants tree =
    map (λ p, decompose_node removed p.2) (List.filter (outside removed) (located soup)) ∧
  Forall (λ n, matches (named_in removed) n = false) (descendants tree).
Proof.
  intros removed tree content. unfold content, scrape_website.
  rewrite ScraperFacts.extract_unfold. cbv zeta. cbn [fst]. fold removed. fold tree.
  split_and!.
  - by simplify_map_eq.
  - by simplify_map_eq.
  - by simplify_map_eq.
  - apply ScraperFacts.full_text_removal_done.
  - apply TreeFacts.descendants_decompose_all.
  - apply TreeFacts.decompose_all_clean.
Qed.

(** ** More on the removal of elements *)

Module RemovalFacts.

Lemma matches_named_in_app a b n :
  matches (named_in (a ++ b)) n = matches (named_in a) n || matches (named_in b) n.
Proof.
  destruct n as [s|nm attrs cs]; [done|]. simpl. unfold named_in.
  rewrite <- bool_decide_or. apply bool_decide_ext, elem_of_app.
Qed.

Lemma decompose_all_app nms t1 t2 :
  decompose_all nms (t1 ++ t2) = decompose_all nms t1 ++ decompose_all nms t2.
Proof. unfold decompose_all. apply flat_map_app. Qed.

Lemma decompose_node_compose a b n :
  decompose_node a (decompose_node b n) = decompose_node (b ++ a) n.
Proof.
  induction n as [s|nm attrs cs IH] using node_ind'; [done|].
  simpl. f_equal.
  change (decompose_all a (decompose_all b cs) = decompose_all (b ++ a) cs).
  induction IH as [|c cs Hc _ IHcs]; [done|].
  rewrite !TreeFacts.decompose_all_cons, decompose_all_app, IHcs.
  rewrite matches_named_in_app. f_equal.
  destruct (matches (named_in b) c) eqn:Hb; simpl; [done|].
  rewrite app_nil_r, TreeFacts.matches_decompose_node, Hc.
  by destruct (matches (named_in a) c).
Qed.

Lemma decompose_all_compose a b t :
  decompose_all a (decompose_all b t) = decompose_all (b ++ a) t.
Proof.
  induction t as [|c t IH]; [done|].
  rewrite !TreeFacts.decompose_all_cons, decompose_all_app, IH.
  rewrite matches_named_in_app. f_equal.
  destruct (matches (named_in b) c) eqn:Hb; simpl; [done|].
  rewrite app_nil_r, TreeFacts.matches_decompose_node, decompose_node_compose.
  by destruct (matches (named_in a) c).
Qed.

Lemma decompose_node_ext a b n :
  (∀ nm, nm ∈ a ↔ nm ∈ b) → decompose_node a n = decompose_node b n.
Proof.
  intros Hab. induction n as [s|nm attrs cs IH] using node_ind'; [done|].
  simpl. f_equal.
  induction IH as [|c cs Hc _ IHcs]; [done|].
  simpl. rewrite IHcs, Hc. f_equal.
  destruct c as [s|nm' attrs' cs']; [done|]. simpl. unfold named_in.
  by rewrite (bool_decide_ext _ _ (Hab nm')).
Qed.

Lemma decompose_all_ext a b t :
  (∀ nm, nm ∈ a ↔ nm ∈ b) → decompose_all a t = decompose_all b t.
Proof.
  intros Hab. induction t as [|c t IH]; [done|].
  rewrite !TreeFacts.decompose_all_cons, IH, (decompose_node_ext a b c Hab). f_equal.
  destruct c as [s|nm' attrs' cs']; [done|]. simpl. unfold named_in.
  by rewrite (bool_decide_ext _ _ (Hab nm')).
Qed.

Lemma stripped_strings_app t1 t2 :
  stripped_strings (t1 ++ t2) = stripped_strings t1 ++ stripped_strings t2.
Proof. unfold stripped_strings, descendants. by rewrite !flat_map_app. Qed.

Lemma stripped_strings_cons c t :
  stripped_strings (c :: t) = stripped_strings [c] ++ stripped_strings t.
Proof. apply (stripped_strings_app [c] t). Qed.

Lemma stripped_strings_tag nm attrs cs :
  stripped_strings [Tag nm attrs cs] = stripped_strings cs.
Proof.
  unfold stripped_strings, descendants. simpl. by rewrite app_nil_r.
Qed.

Lemma stripped_strings_decompose_node nms n :
  stripped_strings [decompose_node nms n] `sublist_of` stripped_strings [n].
Proof.
  induction n as [s|nm attrs cs IH] using node_ind'; [done|].
  change (decompose_node nms (Tag nm attrs cs)) with (Tag nm attrs (decompose_all nms cs)).
  rewrite !stripped_strings_tag.
  induction IH as [|c cs Hc _ IHcs]; [done|].
  rewrite TreeFacts.decompose_all_cons, stripped_strings_app, (stripped_strings_cons c cs).
  apply sublist_app; [|done].
  destruct (matches (named_in nms) c); [apply sublist_nil_l|done].
Qed.

Lemma stripped_strings_decompose_all nms t :
  stripped_strings (decompose_all nms t) `sublist_of` stripped_strings t.
Proof.
  induction t as [|c t IH]; [done|].
  rewrite TreeFacts.decompose_all_cons, stripped_strings_app, (stripped_strings_cons c t).
  apply sublist_app; [|done].
  destruct (matches (named_in nms) c); [apply sublist_nil_l|].
  apply stripped_strings_decompose_node.
Qed.

End RemovalFacts.

(** X1. Removal passes compose: removing the tags named in [b] and then
    those named in [a] is removing those named in either list at once;
    the order of two passes does not matter, and a pass done twice is
    done once. *)
Theorem removal_passes_compose (a b : list string) (t : BeautifulSoup) :
  decompose_all a (decompose_all b t) = decompose_all (b ++ a) t ∧
  decompose_all a (decompose_all b t) = decompose_all b (decompose_all a t) ∧
  decompose_all a (decompose_all a t) = decompose_all a t.
Proof.
  rewrite !RemovalFacts.decompose_all_compose. split_and!; [done| |].
  - apply RemovalFacts.decompose_all_ext. intros nm. rewrite !elem_of_app. tauto.
  - apply RemovalFacts.decompose_all_ext. intros nm. rewrite !elem_of_app. tauto.
Qed.

(** X2. Removal adds no text: the stripped strings of the tree left by a
    removal are strings of the source tree, in the same order; so are
    those read for the main content and the full text of a page. *)
Theorem removal_adds_no_text (nms : list string) (t : BeautifulSoup) :
  stripped_strings (decompose_all nms t) `sublist_of` stripped_strings t ∧
  stripped_strings (_extract_main_content t).2 `sublist_of` stripped_strings t ∧
  stripped_strings (_extract_full_text (_extract_main_content t).2).2
    `sublist_of` stripped_strings t.
Proof.
  split_and!.
  - apply RemovalFacts.stripped_strings_decompose_all.
  - rewrite ScraperFacts.main_content_tree.
    apply RemovalFacts.stripped_strings_decompose_all.
  - rewrite ScraperFacts.main_content_tree, ScraperFacts.full_text_tree,
      ScraperFacts.full_text_removal_done.
    apply RemovalFacts.stripped_strings_decompose_all.
Qed.

(** ** More on the conversation manager *)

Module HistoryFacts.
Import Notions.

Lemma transcript_app xs ys : transcript (xs ++ ys) = transcript xs ++ transcript ys.
Proof. unfold transcript. apply flat_map_app. Qed.

Lemma transcript_length xs : length (transcript xs) = 2 * length xs.
Proof. induction xs as [|x xs IH]; simpl; [done|]. rewrite IH. lia. Qed.

Lemma transcript_drop xs : ∀ k, drop (2 * k) (transcript xs) = transcript (drop k xs).
Proof.
  induction xs as [|x xs IH]; intros [|k]; simpl; try done.
  replace (k + S (k + 0)) with (S (2 * k)) by lia. simpl. apply IH.
Qed.

(** The window of the prompt holds whole exchanges, the last five. *)
Lemma window_of_transcript xs :
  last_entries 10 (transcript xs) = transcript (last_entries 5 xs).
Proof.
  unfold last_entries. rewrite transcript_length, <- transcript_drop. f_equal. lia.
Qed.

Lemma stripped_trimmed s : trimmed (Py.strip s).
Proof. destruct (StripFacts.strip_clean s). by apply StripFacts.trimmed_intro. Qed.

End HistoryFacts.

Module SessionFacts.
Import Notions ConsoleInterface.

Lemma get_response_website c user_input self :
  website_content (get_response c user_input self).2 = website_content self.
Proof.
  rewrite ChatbotFacts.get_response_cases.
  by destruct (c (prompt self user_input)) as [[r|r]|[|[content|] choices]].
Qed.

Lemma get_response_well_formed c user_input self :
  well_formed self → well_formed (get_response c user_input self).2.
Proof.
  intros (xs & Hxs & Htrim). rewrite ChatbotFacts.get_response_cases.
  destruct (c (prompt self user_input)) as [[r|r]|[|[content|] choices]];
    try (by exists xs).
  exists (xs ++ [(user_input, Py.strip content)]). simpl. split.
  - by rewrite Hxs, HistoryFacts.transcript_app.
  - apply Forall_app. split; [done|].
    constructor; [apply HistoryFacts.stripped_trimmed|constructor].
Qed.

Lemma perform_website self k :
  website_content (perform self k) = website_content self.
Proof. destruct k as [user_input c|]; simpl; [apply get_response_website|done]. Qed.

Lemma perform_well_formed self k : well_formed self → well_formed (perform self k).
Proof.
  destruct k as [user_input c|]; simpl; [apply get_response_well_formed|].
  intros _. by exists [].
Qed.

Lemma run_website calls : ∀ self,
  website_content (Chatbot.run calls self) = website_content self.
Proof.
  induction calls as [|k calls IH]; intros self; simpl; [done|].
  by rewrite IH, perform_website.
Qed.

Lemma run_well_formed calls : ∀ self,
  well_formed self → well_formed (Chatbot.run calls self).
Proof.
  induction calls as [|k calls IH]; intros self Hwf; simpl; [done|].
  by apply IH, perform_well_formed.
Qed.

(** What a console session leaves is what some sequence of calls on the
    chatbot leaves. *)
Lemma console_as_calls turns : ∀ bot,
  ∃ calls, final (ConsoleInterface.run turns bot) = Chatbot.run calls bot.
Proof.
  induction turns as [|[k c] turns IH]; intros bot; simpl.
  - by exists [].
  - destruct (command_of (get_user_input k)).
    + by exists [].
    + destruct (IH (clear_history bot).2) as [calls Hcalls].
      exists (Clear :: calls). exact Hcalls.
    + apply IH.
    + pose proof (ChatbotFacts.get_response_cases c (get_user_input k) bot) as Hcases.
      destruct (get_response c (get_user_input k) bot) as [[[msg|msg]|response] bot'] eqn:Hr.
      * destruct (IH bot') as [calls Hcalls].
        exists (Ask (get_user_input k) c :: calls). simpl. by rewrite Hr, Hcalls.
      * exists [Ask (get_user_input k) c]. simpl. by rewrite Hr.
      * destruct (IH bot') as [calls Hcalls].
        exists (Ask (get_user_input k) c :: calls). simpl. by rewrite Hr, Hcalls.
Qed.

End SessionFacts.

(** X3. After any sequence of questions and clearings that starts with
    an empty history, the history is a transcript of whole exchanges, a
    user question followed by its assistant answer; every stored answer
    has no white space around it; and the window read for the prompt
    holds whole exchanges, the last five. *)
Theorem history_is_transcript (website : string) (calls : list call) :
  let self := Chatbot.run calls {| conversation_history := []; website_content := website |} in
  ∃ exchanges,
    conversation_history self = Notions.transcript exchanges ∧
    Forall (λ p, trimmed p.2) exchanges ∧
    last_entries 10 (conversation_history self) =
      Notions.transcript (last_entries 5 exchanges).
Proof.
  intros self.
  destruct (SessionFacts.run_well_formed calls
              {| conversation_history := []; website_content := website |})
    as (xs & Hxs & Htrim); [by exists []|].
  exists xs. fold self in Hxs. split_and!; [done..|].
  rewrite Hxs. apply HistoryFacts.window_of_transcript.
Qed.

(** X4. Questions and clearings never change the website context, so
    every prompt opens with the system message of the context that was
    set; and setting the context leaves the history as it is. *)
Theorem website_context_is_kept (calls : list call) (self : chatbot)
    (content : gmap string string) (user_input : string) :
  website_content (Chatbot.run calls self) = website_content self ∧
  (∃ rest,
     build_messages user_input (Chatbot.run calls self) =
       (inr (Message "system" (system_message (website_content self)) :: rest),
        Chatbot.run calls self)) ∧
  conversation_history (set_website_context content self) = conversation_history self.
Proof.
  split_and!.
  - apply SessionFacts.run_website.
  - eexists. rewrite ChatbotFacts.build_messages_prompt. unfold prompt.
    by rewrite SessionFacts.run_website.
  - reflexivity.
Qed.

(** X5. A clearing forgets all that came before it: the next prompt
    holds the system message and the question and nothing of the
    history, and a sequence of calls with a clearing in it leaves what
    the sequence from that clearing on leaves. *)
Theorem clearing_forgets (before after : list call) (self : chatbot)
    (user_input : string) :
  build_messages user_input (clear_history self).2 =
    (inr [Message "system" (system_message (website_content self));
          Message "user" user_input], (clear_history self).2) ∧
  Chatbot.run (before ++ Clear :: after) self = Chatbot.run (Clear :: after) self.
Proof.
  split; [reflexivity|].
  unfold Chatbot.run. rewrite fold_left_app. simpl. f_equal.
  fold (Chatbot.run before self). unfold clear_history. simpl.
  by rewrite SessionFacts.run_website.
Qed.

(** X6. An exception of the provider that does not derive from
    [Exception], an interrupt of the call for instance, is not turned
    into an error message: it leaves [get_response], and the chatbot is
    as it was. *)
Theorem interrupt_leaves_get_response (c : client) (user_input : string)
    (self : chatbot) (msg : string) :
  c (prompt self user_input) = Raises (BaseException msg) →
  get_response c user_input self = (inl (BaseException msg), self).
Proof. intros Hc. by rewrite ChatbotFacts.get_response_cases, Hc. Qed.

(** X6 on a call that is interrupted. *)
Lemma interrupt_leaves_get_response_witness :
  let interrupted : client := λ _, Raises (BaseException "KeyboardInterrupt") in
  interrupted (prompt init "Who are you?") = Raises (BaseException "KeyboardInterrupt") ∧
  get_response interrupted "Who are you?" init =
    (inl (BaseException "KeyboardInterrupt"), init).
Proof.
  split; [reflexivity|].
  apply (interrupt_leaves_get_response _ "Who are you?" init "KeyboardInterrupt").
  reflexivity.
Defined.

(** X7. When the provider answers, [get_response] returns the content of
    the first choice without the white space around it, whatever the
    other choices are, and that same text is the answer put in the
    history after the question. *)
Theorem answer_is_first_choice_stripped (c : client) (user_input : string)
    (self : chatbot) (content : string) (others : list (option string)) :
  c (prompt self user_input) = Response (Some content :: others) →
  (get_response c user_input self).1 = inr (Py.strip content) ∧
  trimmed (Py.strip content) ∧
  conversation_history (get_response c user_input self).2 =
    conversation_history self ++
    [Message "user" user_input; Message "assistant" (Py.strip content)].
Proof.
  intros Hc. rewrite ChatbotFacts.get_response_cases, Hc. simpl.
  split_and!; [done| |done]. apply HistoryFacts.stripped_trimmed.
Qed.

(** X7 on an answer given with white space around it. *)
Lemma answer_is_first_choice_stripped_witness :
  let answering : client := λ _, Response [Some "  We sell anvils. "; Some "other"] in
  answering (prompt init "What is sold here?") =
    Response [Some "  We sell anvils. "; Some "other"] ∧
  (get_response answering "What is sold here?" init).1 = inr "We sell anvils.".
Proof.
  split; [reflexivity|].
  apply (answer_is_first_choice_stripped _ "What is sold here?" init
           "  We sell anvils. " [Some "other"]).
  reflexivity.
Defined.

(** ** The console *)

Module ConsoleFacts.
Import ConsoleInterface.

Lemma run_stops pre : ∀ k c rest bot,
  command_of (get_user_input k) = Quit →
  ConsoleInterface.run (pre ++ (k, c) :: rest) bot = ConsoleInterface.run pre bot.
Proof.
  induction pre as [|[k' c'] pre IH]; intros k c rest bot Hquit; simpl.
  - by rewrite Hquit.
  - destruct (command_of (get_user_input k')); try done.
    + by apply IH.
    + by apply IH.
    + destruct (get_response c' (get_user_input k') bot) as [[[msg|msg]|response] bot'].
      * by apply IH.
      * done.
      * by rewrite (IH k c rest bot' Hquit).
Qed.

End ConsoleFacts.

(** X8. A console session started on a chatbot with an empty history
    leaves its website context as it was and a history that is a
    transcript of whole exchanges with trimmed answers, whatever is
    typed and whatever the provider does. *)
Theorem console_session_keeps_invariants (website : string)
    (turns : list (ConsoleInterface.keyboard * client)) :
  let bot := {| conversation_history := []; website_content := website |} in
  let s := ConsoleInterface.run turns bot in
  website_content (ConsoleInterface.final s) = website ∧
  ∃ exchanges,
    conversation_history (ConsoleInterface.final s) = Notions.transcript exchanges ∧
    Forall (λ p, trimmed p.2) exchanges.
Proof.
  intros bot s. unfold s.
  destruct (SessionFacts.console_as_calls turns bot) as [calls ->]. split.
  - by rewrite SessionFacts.run_website.
  - apply SessionFacts.run_well_formed. by exists [].
Qed.

(** X9. Nothing typed after [exit] or [quit] is read: a session with
    such a line in it is the session that ends where the line stands.
    The line may be written in any case and with white space around it;
    the end of the input and an interrupt of the input count as [exit]. *)
Theorem console_stops_at_exit
    (pre rest : list (ConsoleInterface.keyboard * client))
    (k : ConsoleInterface.keyboard) (c : client) (bot : chatbot) :
  ConsoleInterface.command_of (ConsoleInterface.get_user_input k) = ConsoleInterface.Quit →
  ConsoleInterface.run (pre ++ (k, c) :: rest) bot = ConsoleInterface.run pre bot.
Proof. apply ConsoleFacts.run_stops. Qed.

(** X9 on a session where a question is typed after [Quit]. *)
Lemma console_stops_at_exit_witness :
  let silent : client := λ _, Response [Some "never asked"] in
  ConsoleInterface.command_of
    (ConsoleInterface.get_user_input (ConsoleInterface.Typed "  Quit ")) =
    ConsoleInterface.Quit ∧
  ConsoleInterface.run
    ([(ConsoleInterface.Typed "", silent)] ++
     (ConsoleInterface.Typed "  Quit ", silent) ::
     [(ConsoleInterface.Typed "What is sold here?", silent)]) init =
  ConsoleInterface.run [(ConsoleInterface.Typed "", silent)] init.
Proof.
  split; [by vm_compute|].
  apply (console_stops_at_exit [(ConsoleInterface.Typed "", _)]
           [(ConsoleInterface.Typed "What is sold here?", _)]
           (ConsoleInterface.Typed "  Quit ")).
  by vm_compute.
Defined.

(** ** The record of a page *)

Module RecordFacts.

Lemma record_fields soup :
  let tree := decompose_all ["script"; "style"; "nav"; "footer"; "header"] soup in
  let content := scrape_website (Page soup) in
  content !! "title" = Some (_extract_title soup) ∧
  content !! "description" = Some (_extract_description soup) ∧
  content !! "main_content" = Some (_extract_main_content soup).1 ∧
  content !! "headings" = Some (_extract_headings tree) ∧
  content !! "links" = Some (_extract_links tree) ∧
  content !! "full_text" = Some (_extract_full_text tree).1.
Proof.
  intros tree content. unfold content, scrape_website.
  rewrite ScraperFacts.extract_unfold. cbv zeta. cbn [fst].
  split_and!; by simplify_map_eq.
Qed.

Lemma get_truthy_some content k v :
  content !! k = Some v → Py.truthy v = true → get_truthy content k = Some v.
Proof. unfold get_truthy. by intros -> ->. Qed.

Lemma links_at_most_window soup :
  length (collected_links soup) ≤ length (take 15 (find_all (named_having "a" "href") soup)).
Proof.
  rewrite LoopFacts.collected_links_kept, length_map, <- LoopFacts.find_all_anchors.
  apply filter_length_le.
Qed.

End RecordFacts.

(** X10. The grounding context made from the record of a page is never
    empty: it always has the description, the headings, the main content
    and the links, each under its label and with its sentinel when
    nothing was found, after the title line, which is left out only when
    the title is empty. *)
Theorem context_of_a_page_is_never_empty (soup : BeautifulSoup) :
  let tree := decompose_all ["script"; "style"; "nav"; "footer"; "header"] soup in
  let context := _format_content_for_context (scrape_website (Page soup)) in
  context =
    Py.join Py.nl
      ((if Py.truthy (_extract_title soup) then ["Title: " +:+ _extract_title soup] else [])
       ++ ["Description: " +:+ _extract_description soup;
           (Py.nl +:+ "Headings:" +:+ Py.nl) +:+ _extract_headings tree;
           (Py.nl +:+ "Main Content:" +:+ Py.nl) +:+ (_extract_main_content soup).1;
           (Py.nl +:+ "Important Links:" +:+ Py.nl) +:+ _extract_links tree]) ∧
  Py.truthy context = true.
Proof.
  intros tree context. unfold context, _format_content_for_context.
  destruct (RecordFacts.record_fields soup) as (Ht & Hd & Hm & Hh & Hl & _).
  fold tree in Hh, Hl.
  rewrite (RecordFacts.get_truthy_some _ _ _ Hd (FieldFacts.description_truthy soup)).
  rewrite (RecordFacts.get_truthy_some _ _ _ Hh (FieldFacts.headings_truthy tree)).
  rewrite (RecordFacts.get_truthy_some _ _ _ Hm (FieldFacts.main_content_truthy soup)).
  rewrite (RecordFacts.get_truthy_some _ _ _ Hl (FieldFacts.links_truthy tree)).
  unfold get_truthy. rewrite Ht.
  destruct (Py.truthy (_extract_title soup)); split; reflexivity.
Qed.


(** X12. The links field has at most 15 entries, and no more entries
    than the document has anchors with an [href]. *)
Theorem links_at_most_fifteen (soup : BeautifulSoup) :
  length (collected_links soup) ≤ 15 ∧
  length (collected_links soup) ≤ length (find_all (named_having "a" "href") soup).
Proof.
  pose proof (RecordFacts.links_at_most_window soup) as Hw.
  rewrite length_take in Hw. lia.
Qed.

(** ** Lines *)

Module LineFacts.
Import Py.

Lemma eqb_swap a c : Ascii.eqb a c = Ascii.eqb c a.
Proof.
  destruct (Ascii.eqb c a) eqn:Hca.
  - apply Ascii.eqb_eq in Hca as ->. apply Ascii.eqb_refl.
  - apply Ascii.eqb_neq. apply Ascii.eqb_neq in Hca. congruence.
Qed.

Lemma split_lacks c s : Forall (λ w, lacks c w = true) (split c s).
Proof.
  induction s as [|a s IH]; simpl; [by repeat constructor|].
  destruct (Ascii.eqb a c) eqn:Hac; [by constructor|].
  destruct (split c s) as [|w ws].
  - repeat constructor. simpl. by rewrite <- eqb_swap, Hac.
  - apply Forall_cons in IH as [Hw Hws]. constructor; [|done].
    simpl. by rewrite <- eqb_swap, Hac.
Qed.

Lemma split_one c w : lacks c w = true → split c w = [w].
Proof.
  induction w as [|a w IH]; simpl; [done|].
  intros [Ha Hw]%andb_true_iff. apply negb_true_iff in Ha.
  by rewrite eqb_swap, Ha, (IH Hw).
Qed.

Lemma split_app c w rest :
  lacks c w = true → split c (w +:+ String c rest) = w :: split c rest.
Proof.
  induction w as [|a w IH]; intros Hw.
  - change ("" +:+ String c rest) with (String c rest). simpl.
    by rewrite Ascii.eqb_refl.
  - change (String a w +:+ String c rest) with (String a (w +:+ String c rest)).
    simpl in *. apply andb_true_iff in Hw as [Ha Hw]. apply negb_true_iff in Ha.
    by rewrite eqb_swap, Ha, (IH Hw).
Qed.

(** Joining lines and splitting again gives the lines back. *)
Lemma split_join c l :
  Forall (λ w, lacks c w = true) l →
  split c (join (String c "") l) = match l with [] => [""] | _ => l end.
Proof.
  induction 1 as [|w l Hw Hl IH]; [done|].
  destruct l as [|w' l]; [by apply split_one|].
  change (join (String c "") (w :: w' :: l))
    with (w +:+ String c (join (String c "") (w' :: l))).
  by rewrite (split_app c w _ Hw), IH.
Qed.

Lemma lacks_lstrip c s : lacks c s = true → lacks c (lstrip s) = true.
Proof.
  induction s as [|a s IH]; simpl; [done|].
  intros Has. destruct (is_space a); [|done].
  apply andb_true_iff in Has as [_ Hs]. by apply IH.
Qed.

Lemma lacks_rstrip c s : lacks c s = true → lacks c (rstrip s) = true.
Proof.
  induction s as [|a s IH]; simpl; [done|].
  intros [Ha Hs]%andb_true_iff. specialize (IH Hs).
  destruct (rstrip s) as [|b r].
  - destruct (is_space a); simpl; [done|]. by rewrite Ha.
  - simpl in *. by rewrite Ha, IH.
Qed.

Lemma lacks_strip c s : lacks c s = true → lacks c (strip s) = true.
Proof. intros Hs. by apply lacks_rstrip, lacks_lstrip. Qed.

End LineFacts.

(** X13. Before it is cut at 5000 characters, the full text is made of
    the lines of the page text that are not blank, each stripped: no
    line of it is empty, none has white space around it, and splitting
    it at the line feeds gives these lines back. *)
Theorem full_text_lines_are_clean (soup : BeautifulSoup) :
  let lines := Notions.clean_lines (decompose_all ["script"; "style"; "nav"; "footer"] soup) in
  let text := Py.join Py.nl lines in
  (_extract_full_text soup).1 =
    (if Py.truthy text then Py.take 5000 text else "No text found") ∧
  Forall (λ line, Py.truthy line = true ∧ trimmed line) lines ∧
  Py.split "010" text = match lines with [] => [""] | _ => lines end.
Proof.
  intros lines text. split_and!.
  - reflexivity.
  - unfold lines, Notions.clean_lines. apply Forall_forall. intros line Hline.
    apply list_elem_of_In, in_map_iff in Hline as (raw & <- & Hraw).
    apply filter_In in Hraw as [_ Hraw]. split; [done|].
    apply HistoryFacts.stripped_trimmed.
  - apply LineFacts.split_join.
    unfold lines, Notions.clean_lines. apply Forall_forall. intros line Hline.
    apply list_elem_of_In, in_map_iff in Hline as (raw & <- & Hraw).
    apply filter_In in Hraw as [Hraw _].
    apply LineFacts.lacks_strip.
    pose proof (LineFacts.split_lacks "010" (soup_get_text Py.nl
      (decompose_all ["script"; "style"; "nav"; "footer"] soup))) as Hall.
    rewrite Forall_forall in Hall. by apply Hall, list_elem_of_In.
Qed.

(** ** Text that is not cut *)

Module CutFacts.
Import Py.

Lemma take_short n : ∀ s, String.length (take n s) < n → take n s = s.
Proof.
  induction n as [|n IH]; intros s; [simpl; lia|].
  destruct s as [|c s]; [done|].
  change (take (S n) (String c s)) with (String c (take n s)). simpl.
  intros Hlen. f_equal. apply IH. lia.
Qed.

Lemma clean_start_take n s : clean_start s = true → clean_start (take n s) = true.
Proof. by destruct n, s. Qed.

(** Pieces that are stripped and not empty, joined by any separator,
    make a trimmed string. *)
Lemma join_sep_clean sep l :
  Forall (λ s, truthy s = true ∧ clean_start s = true ∧ rstrip s = s) l →
  clean_start (join sep l) = true ∧ rstrip (join sep l) = join sep l.
Proof.
  induction 1 as [|s l (Ht & Hs & Hr) Hl [IHs IHr]]; [done|].
  destruct l as [|s' l]; [done|].
  change (join sep (s :: s' :: l)) with (s +:+ sep +:+ join sep (s' :: l)).
  split; [by apply StripFacts.clean_start_app|].
  apply Forall_cons in Hl as [(Ht' & _) _].
  assert (Hj : truthy (join sep (s' :: l)) = true) by by apply PyFacts.truthy_join_cons.
  apply StripFacts.rstrip_app.
  - by rewrite PyFacts.truthy_app, Hj, orb_true_r.
  - by apply StripFacts.rstrip_app.
Qed.

Lemma get_text_clean sep n :
  clean_start (get_text sep n) = true ∧ rstrip (get_text sep n) = get_text sep n.
Proof. apply join_sep_clean, StripFacts.stripped_strings_clean. Qed.

Lemma clean_lines_clean t :
  Forall (λ s, truthy s = true ∧ clean_start s = true ∧ rstrip s = s) (Notions.clean_lines t).
Proof.
  unfold Notions.clean_lines. apply Forall_forall. intros line Hline.
  apply list_elem_of_In, in_map_iff in Hline as (raw & <- & Hraw).
  apply filter_In in Hraw as [_ Hraw]. split; [done|]. apply StripFacts.strip_clean.
Qed.

(** The main content before it is cut: the text of the element, or the
    sentinel. *)
Lemma main_content_uncut soup :
  ∃ text, (_extract_main_content soup).1 = take 3000 text ∧
          clean_start text = true ∧ rstrip text = text.
Proof.
  unfold _extract_main_content.
  destruct (main_content_element _) as [e|]; simpl.
  - destruct (truthy (get_text nl e)) eqn:He.
    + exists (get_text nl e). split; [done|]. apply get_text_clean.
    + by exists "No main content found".
  - by exists "No main content found".
Qed.

Lemma full_text_uncut soup :
  ∃ text, (_extract_full_text soup).1 = take 5000 text ∧
          clean_start text = true ∧ rstrip text = text.
Proof.
  unfold _extract_full_text. cbn [fst].
  destruct (truthy (join nl _)) eqn:He.
  - eexists. split; [reflexivity|].
    apply (join_sep_clean nl), clean_lines_clean.
  - by exists "No text found".
Qed.

End CutFacts.

(** X14. The main content and the full text of a page never begin with
    white space, cut or not. *)
Theorem text_fields_start_clean (soup : BeautifulSoup) :
  clean_start (_extract_main_content soup).1 = true ∧
  clean_start (_extract_full_text soup).1 = true.
Proof.
  destruct (CutFacts.main_content_uncut soup) as (m & -> & Hm & _).
  destruct (CutFacts.full_text_uncut soup) as (f & -> & Hf & _).
  split; by apply CutFacts.clean_start_take.
Qed.

(** X15. A main content of fewer than 3000 characters was not cut: it
    has no white space at either end. *)
Theorem short_main_content_is_trimmed (soup : BeautifulSoup) :
  String.length (_extract_main_content soup).1 < 3000 →
  trimmed (_extract_main_content soup).1.
Proof.
  destruct (CutFacts.main_content_uncut soup) as (m & -> & Hm & Hr).
  intros Hlen. rewrite (CutFacts.take_short _ _ Hlen).
  by apply StripFacts.trimmed_intro.
Qed.

(** X15 on the page of the scenario. *)
Lemma short_main_content_is_trimmed_witness :
  String.length (_extract_main_content acme_page).1 < 3000 ∧
  trimmed (_extract_main_content acme_page).1.
Proof.
  split; [apply Nat.ltb_lt; by vm_compute|].
  apply (short_main_content_is_trimmed acme_page).
  apply Nat.ltb_lt. by vm_compute.
Defined.

(** X16. A full text of fewer than 5000 characters was not cut: it has
    no white space at either end. *)
Theorem short_full_text_is_trimmed (soup : BeautifulSoup) :
  String.length (_extract_full_text soup).1 < 5000 →
  trimmed (_extract_full_text soup).1.
Proof.
  destruct (CutFacts.full_text_uncut soup) as (f & -> & Hf & Hr).
  intros Hlen. rewrite (CutFacts.take_short _ _ Hlen).
  by apply StripFacts.trimmed_intro.
Qed.

(** X16 on the page of the scenario. *)
Lemma short_full_text_is_trimmed_witness :
  String.length (_extract_full_text acme_page).1 < 5000 ∧
  trimmed (_extract_full_text acme_page).1.
Proof.
  split; [apply Nat.ltb_lt; by vm_compute|].
  apply (short_full_text_is_trimmed acme_page).
  apply Nat.ltb_lt. by vm_compute.
Defined.

(** ** The entry point *)

Module ProgramFacts.
Import Program ConsoleInterface Notions.

Lemma with_scheme_has_scheme url : has_scheme (with_scheme url) = true.
Proof.
  unfold with_scheme, has_scheme.
  destruct (Py.startswith url "http://" || Py.startswith url "https://") eqn:Hs; simpl.
  - exact Hs.
  - change ("https://" +:+ url) with
      (String "h" (String "t" (String "t" (String "p" (String "s"
         (String ":" (String "/" (String "/" url)))))))).
    simpl. by destruct url.
Qed.

Lemma read_url_scheme stdin : ∀ url rest,
  read_url stdin = Some (url, rest) → has_scheme url = true.
Proof.
  induction stdin as [|[k c] stdin IH]; intros url rest; simpl; [done|].
  destruct k as [line| |]; try done.
  destruct (Py.truthy (Py.strip line)); [|by apply IH].
  intros [= <- _]. apply with_scheme_has_scheme.
Qed.

Lemma page_record_not_empty soup : scrape_website (Page soup) ≠ ∅.
Proof.
  intros Hempty. destruct (RecordFacts.record_fields soup) as (Ht & _).
  cbv zeta in Ht. rewrite Hempty in Ht. by rewrite lookup_empty in Ht.
Qed.

Lemma page_context_truthy soup :
  Py.truthy (_format_content_for_context (scrape_website (Page soup))) = true.
Proof.
  unfold _format_content_for_context.
  destruct (RecordFacts.record_fields soup) as (_ & Hd & _).
  rewrite (RecordFacts.get_truthy_some _ _ _ Hd (FieldFacts.description_truthy soup)).
  destruct (get_truthy _ "title"), (get_truthy _ "headings"),
    (get_truthy _ "main_content"), (get_truthy _ "links"); reflexivity.
Qed.

Lemma console_website turns bot :
  website_content (final (ConsoleInterface.run turns bot)) = website_content bot.
Proof.
  destruct (SessionFacts.console_as_calls turns bot) as [calls ->].
  apply SessionFacts.run_website.
Qed.

End ProgramFacts.

(** X17. The URL handed on by the prompt loop always names its scheme:
    [https://] is put before a URL that begins with neither [http://]
    nor [https://], and doing so twice changes nothing more. *)
Theorem url_gets_a_scheme (url : string) :
  Notions.has_scheme (Program.with_scheme url) = true ∧
  Program.with_scheme (Program.with_scheme url) = Program.with_scheme url.
Proof.
  split; [apply ProgramFacts.with_scheme_has_scheme|].
  pose proof (ProgramFacts.with_scheme_has_scheme url) as Hs.
  unfold Notions.has_scheme in Hs. unfold Program.with_scheme at 1. by rewrite Hs.
Qed.

(** X18. When [main] gets to a console session, an API key was found in
    the environment and is not empty, the URL that was fetched names its
    scheme, the request gave a page, and the chatbot ends the session
    with the context formatted from the record of that page, which is
    not empty. *)
Theorem main_session_has_context (env_key : option string) (fetch : string → fetched)
    (stdin : list (ConsoleInterface.keyboard * client)) (url : string)
    (s : ConsoleInterface.session) :
  Program.main env_key fetch stdin = Program.Session url s →
  (∃ api_key, env_key = Some api_key ∧ Py.truthy api_key = true) ∧
  Notions.has_scheme url = true ∧
  (∃ soup, fetch url = Page soup) ∧
  website_content (ConsoleInterface.final s) =
    _format_content_for_context (scrape_website (fetch url)) ∧
  Py.truthy (website_content (ConsoleInterface.final s)) = true.
Proof.
  unfold Program.main, Program.setup_environment.
  destruct env_key as [api_key|]; [|done].
  destruct (Py.truthy api_key) eqn:Hkey; [|done]. simpl.
  destruct (Program.read_url stdin) as [[url' rest]|] eqn:Hread; [|done].
  destruct (bool_decide (scrape_website (fetch url') = ∅)) eqn:Hempty; [done|].
  intros [= <- <-].
  apply bool_decide_eq_false in Hempty.
  destruct (fetch url') as [e|soup] eqn:Hfetch; [done|].
  rewrite ProgramFacts.console_website. simpl.
  split_and!; eauto.
  - by eapply ProgramFacts.read_url_scheme.
  - apply ProgramFacts.page_context_truthy.
Qed.

(** X18 on a run where the URL is typed without its scheme after a blank
    line, and the session is left at once. *)
Lemma main_session_has_context_witness :
  let silent : client := λ _, Response [] in
  let stdin := [(ConsoleInterface.Typed "  ", silent);
                (ConsoleInterface.Typed " acme.example ", silent);
                (ConsoleInterface.Typed "exit", silent)] in
  let s := ConsoleInterface.run [(ConsoleInterface.Typed "exit", silent)]
             (set_website_context (scrape_website (Page acme_page)) init) in
  Program.main (Some "sk-test") Notions.acme_site stdin =
    Program.Session "https://acme.example" s ∧
  Notions.has_scheme "https://acme.example" = true.
Proof.
  intros silent stdin s. split; [by vm_compute|].
  apply (main_session_has_context (Some "sk-test") Notions.acme_site stdin
           "https://acme.example" s).
  by vm_compute.
Defined.

(** X19. The context of the demonstration is empty exactly when the
    title, the description and the main content are all missing or
    empty, as for the empty record of a failed request; for the record
    of a page it always has the description and at most 200 characters
    of the main content followed by three dots, after the title line,
    which is left out only when the title is empty. *)
Theorem demo_context_shape (content : gmap string string) (soup : BeautifulSoup) :
  Py.truthy (Demo.demo_content_processing content) =
    existsb (λ k, bool_decide (is_Some (get_truthy content k)))
      ["title"; "description"; "main_content"] ∧
  Demo.demo_content_processing (scrape_website (Page soup)) =
    Py.join Py.nl
      ((if Py.truthy (_extract_title soup) then ["Title: " +:+ _extract_title soup] else [])
       ++ ["Description: " +:+ _extract_description soup;
           "Main Content: " +:+ Py.take 200 (_extract_main_content soup).1 +:+ "..."]).
Proof.
  split.
  - unfold Demo.demo_content_processing.
    destruct (bool_decide (content = ∅)) eqn:Hempty.
    + apply bool_decide_eq_true in Hempty as ->.
      simpl. unfold get_truthy. by rewrite !lookup_empty.
    + cbn [existsb].
      destruct (get_truthy content "title"), (get_truthy content "description"),
        (get_truthy content "main_content"); reflexivity.
  - unfold Demo.demo_content_processing.
    rewrite (bool_decide_eq_false_2 _ (ProgramFacts.page_record_not_empty soup)).
    destruct (RecordFacts.record_fields soup) as (Ht & Hd & Hm & _).
    rewrite (RecordFacts.get_truthy_some _ _ _ Hd (FieldFacts.description_truthy soup)).
    rewrite (RecordFacts.get_truthy_some _ _ _ Hm (FieldFacts.main_content_truthy soup)).
    unfold get_truthy. rewrite Ht.
    by destruct (Py.truthy (_extract_title soup)).
Qed.
